(** * Monte Carlo cyber-risk simulator: a shallow embedding

    The development follows [simulation_types.py],
    [cyber_risk_simulator.py], [web_service.py] and [analysis_service.py].
    Exceptions are values of [exn]; a Python callable that may raise returns
    a [result].  The process-global state the code touches (the NumPy random
    state behind [poisson.rvs] / [norm.rvs], the [self] object and the CSV
    files written by [to_csv]) is threaded explicitly.

    The simulation engine is read twice.  At the top level its numbers are
    exact rationals ([Q]; the standard deviation, the square root of a
    rational variance, is a real number): this reading serves what does not
    depend on rounding, namely which variates are drawn and in which order,
    which rows are logged and what is written.  In [float64], with the
    reductions of [np64], its numbers are IEEE 754 binary64 as in the code:
    this reading serves the values of the metrics. *)

From Stdlib Require Import Floats Ascii String QArith Qround Qabs Reals Qreals Lra Lqa Sorted Permutation.
From stdpp Require Import gmap strings list.

Set Warnings "-inexact-float".

Local Open Scope Q_scope.

(** ** simulation_types.py *)

Inductive RevenueBand := BAND_10M | BAND_100M | BAND_500M | BAND_1B.

Inductive Industry := HEALTHCARE | FINANCE | RETAIL | MANUFACTURING | CONSTRUCTION.

#[global] Instance RevenueBand_eq_dec : EqDecision RevenueBand.
Proof. solve_decision. Defined.

#[global] Instance Industry_eq_dec : EqDecision Industry.
Proof. solve_decision. Defined.

(** [list(RevenueBand)] and [list(Industry)]: the members in definition order. *)
Definition RevenueBand_members : list RevenueBand :=
  [BAND_10M; BAND_100M; BAND_500M; BAND_1B].

Definition Industry_members : list Industry :=
  [HEALTHCARE; FINANCE; RETAIL; MANUFACTURING; CONSTRUCTION].

(** [band.value] *)
Definition RevenueBand_value (b : RevenueBand) : string :=
  match b with
  | BAND_10M => "10M"
  | BAND_100M => "100M"
  | BAND_500M => "500M"
  | BAND_1B => "1B"
  end.

(** [industry.name] *)
Definition Industry_name (i : Industry) : string :=
  match i with
  | HEALTHCARE => "HEALTHCARE"
  | FINANCE => "FINANCE"
  | RETAIL => "RETAIL"
  | MANUFACTURING => "MANUFACTURING"
  | CONSTRUCTION => "CONSTRUCTION"
  end.

(** [industry.value], assigned by [auto()] *)
Definition Industry_value (i : Industry) : Z :=
  match i with
  | HEALTHCARE => 1
  | FINANCE => 2
  | RETAIL => 3
  | MANUFACTURING => 4
  | CONSTRUCTION => 5
  end%Z.

(** The Python objects a dynamically typed argument may be bound to. *)
Inductive pyobj :=
| PyNone
| PyStr (s : string)
| PyNum (q : Q)
| PyRevenueBand (b : RevenueBand)
| PyIndustry (i : Industry).

(** The texts of the messages the code formats, with their arguments. *)
Inductive message :=
| Invalid_revenue (revenue : Q)
| Invalid_revenue_band (revenue_band : pyobj)
| Unknown_industry (industry : Industry)
| Invalid_revenue_band_for_industry (revenue_band : RevenueBand) (industry : Industry)
| Invalid_industry_string (industry_str : string)
| Library_message (text : string).

Inductive exn :=
| ValueError (m : message)
| NameError (name : string)
| AttributeError (attr : string)
| KeyError (key : string)
| IndexError (index : nat)
| TypeError (text : string)
| OSError (strerror : string).

Inductive result (A : Type) :=
| Ok (a : A)
| Raise (e : exn).
Arguments Ok {A} a.
Arguments Raise {A} e.

(** The spec's error taxonomy, read off the raised exception. *)
Definition is_InvalidRevenue (e : exn) : bool :=
  match e with ValueError (Invalid_revenue _) => true | _ => false end.

Definition is_InvalidBand (e : exn) : bool :=
  match e with ValueError (Invalid_revenue_band _) => true | _ => false end.

Definition is_UnknownIndustry (e : exn) : bool :=
  match e with ValueError (Unknown_industry _) => true | _ => false end.

Definition is_UnknownBand (e : exn) : bool :=
  match e with ValueError (Invalid_revenue_band_for_industry _ _) => true | _ => false end.

(** [revenue_band_dict = {band.value: band for band in RevenueBand}] *)
Definition revenue_band_dict : gmap string RevenueBand :=
  foldl (fun d band => <[RevenueBand_value band := band]> d) ∅ RevenueBand_members.

(** [revenue_band_dict.get(band_str, None)] *)
Definition parse_revenue_band (band_str : string) : option RevenueBand :=
  revenue_band_dict !! band_str.

(** [Industry._member_map_], the table behind [cls[...]] *)
Definition Industry_member_map : gmap string Industry :=
  foldl (fun d i => <[Industry_name i := i]> d) ∅ Industry_members.

Section FromString.
(** [str.upper] and [str.lower] belong to the Python runtime. *)
Variable upper : string -> string.

Definition Industry_from_string (industry_str : string) : result Industry :=
  match Industry_member_map !! upper industry_str with
  | Some i => Ok i
  | None => Raise (ValueError (Invalid_industry_string industry_str))
  end.
End FromString.

(** ASCII case mapping, the part of [str.upper] / [str.lower] that the
    member names need. *)
Definition ascii_upper (c : ascii) : ascii :=
  let n := nat_of_ascii c in
  if (97 <=? n)%nat && (n <=? 122)%nat then ascii_of_nat (n - 32) else c.

Definition ascii_lower (c : ascii) : ascii :=
  let n := nat_of_ascii c in
  if (65 <=? n)%nat && (n <=? 90)%nat then ascii_of_nat (n + 32) else c.

Fixpoint string_map (f : ascii -> ascii) (s : string) : string :=
  match s with
  | EmptyString => EmptyString
  | String c s' => String (f c) (string_map f s')
  end.

Definition str_upper : string -> string := string_map ascii_upper.
Definition str_lower : string -> string := string_map ascii_lower.

(** ** cyber_risk_simulator.py: revenue classifier *)

Definition Qlt_bool (x y : Q) : bool := negb (Qle_bool y x).

Definition get_revenue_band_by_revenue (revenue : Q) : result RevenueBand :=
  if Qlt_bool revenue 0 then Raise (ValueError (Invalid_revenue revenue))
  else if Qle_bool revenue 10 then Ok BAND_10M
  else if Qle_bool revenue 100 then Ok BAND_100M
  else if Qle_bool revenue 500 then Ok BAND_500M
  else if Qle_bool revenue 1000 then Ok BAND_1B
  else Raise (ValueError (Invalid_revenue revenue)).

(** [obj.value]: defined on enumeration members only. *)
Definition getattr_value (o : pyobj) : result pyobj :=
  match o with
  | PyRevenueBand b => Ok (PyStr (RevenueBand_value b))
  | PyIndustry i => Ok (PyNum (inject_Z (Industry_value i)))
  | _ => Raise (AttributeError "value")
  end.

(** The names bound in the module's global scope. *)
Definition module_globals : list string :=
  ["np"; "pd"; "json"; "datetime"; "CostParam"; "FrequencyParam"; "MeanLoss";
   "TotalLoss"; "RevenueBand"; "SimulationMetrics"; "revenue_band_dict";
   "Industry"; "Tuple"; "poisson"; "norm"; "logging"; "setup_config";
   "config_dict"; "stats_cache"; "load_stats"; "get_revenue_band_by_revenue";
   "get_revenue_boundaries_by_band"; "_get_industry_revenue_params";
   "CyberRiskSimulator"]%string.

(** Name resolution inside a function: locals, then module globals. *)
Definition lookup_name (locals : list (string * pyobj)) (name : string) : result unit :=
  if bool_decide (name ∈ locals.*1) || bool_decide (name ∈ module_globals)
  then Ok tt else Raise (NameError name).

Definition get_revenue_boundaries_by_band (revenue_band : pyobj) : result (Z * Z) :=
  (* logging.debug(f"... {revenue_band.value=}") *)
  match getattr_value revenue_band with
  | Raise e => Raise e
  | Ok _ =>
    match revenue_band with
    | PyRevenueBand BAND_10M => Ok (0, 10)%Z
    | PyRevenueBand BAND_100M => Ok (10, 100)%Z
    | PyRevenueBand BAND_500M => Ok (100, 500)%Z
    | PyRevenueBand BAND_1B => Ok (500, 1000)%Z
    | _ =>
      (* logging.error(f"Invalid revenue band: {revenue}") *)
      match lookup_name [("revenue_band"%string, revenue_band)] "revenue" with
      | Raise e => Raise e
      | Ok _ => Raise (ValueError (Invalid_revenue_band revenue_band))
      end
    end
  end.

(** ** cyber_risk_simulator.py: parameter resolver *)

(** The parsed statistics file: industry -> band label -> field -> number. *)
Abbreviation StatsTable := (gmap string (gmap string (gmap string Q))).

(** [d[key]] on a dict *)
Definition getitem {V} (d : gmap string V) (key : string) : result V :=
  match d !! key with
  | Some v => Ok v
  | None => Raise (KeyError key)
  end.

Definition _get_industry_revenue_params (stats : StatsTable)
    (industry : Industry) (revenue : Q) : result (Q * Q) :=
  match stats !! str_lower (Industry_name industry) with
  | None => Raise (ValueError (Unknown_industry industry))
  | Some by_band =>
    match get_revenue_band_by_revenue revenue with
    | Raise e => Raise e
    | Ok revenue_band =>
      match by_band !! RevenueBand_value revenue_band with
      | None => Raise (ValueError (Invalid_revenue_band_for_industry revenue_band industry))
      | Some entry =>
        match getitem entry "frequency" with
        | Raise e => Raise e
        | Ok frequency =>
          match getitem entry "cost" with
          | Raise e => Raise e
          | Ok cost => Ok (frequency, cost)
          end
        end
      end
    end
  end.

(** ** The random variates behind [scipy.stats]

    [poisson.rvs(mu, size=n)] and [norm.rvs(loc, scale)] draw from the
    process-global NumPy random state (or from whatever a test patches in
    their place).  The generator is an interface: a state and the two
    draws, each returning the advanced state. *)
Class RandomSource := {
  rng_state : Type;
  poisson_rvs : Q -> Z -> rng_state -> result (list nat) * rng_state;
  norm_rvs : Q -> Q -> rng_state -> result Q * rng_state
}.

(** ** NumPy reductions, on exact rationals

    The reductions as functions of exact numbers, without rounding; [np64]
    below has them in binary64, as the code computes them. *)
Module np.

Definition sum (a : list Q) : Q := fold_left Qplus a 0.

Definition mean (a : list Q) : Q := sum a / inject_Z (Z.of_nat (length a)).

Fixpoint insert_sorted (x : Q) (s : list Q) : list Q :=
  match s with
  | [] => [x]
  | y :: s' => if Qle_bool x y then x :: y :: s' else y :: insert_sorted x s'
  end.

Definition sort (a : list Q) : list Q := foldr insert_sorted [] a.

Definition median (a : list Q) : Q :=
  let s := sort a in
  let n := length a in
  if Nat.even n
  then (nth (n / 2 - 1) s 0 + nth (n / 2) s 0) / 2
  else nth (n / 2) s 0.

(** [np.var], [ddof = 0]: the mean of the squared deviations. *)
Definition var (a : list Q) : Q :=
  let m := mean a in
  mean (map (fun x => (x - m) * (x - m)) a).

Definition std (a : list Q) : R := sqrt (Q2R (var a)).

(** The error of a reduction without identity on an empty array;
    [operation] is the name of the reduction, [minimum] or [maximum]. *)
Definition zero_size_array (operation : string) : exn :=
  ValueError (Library_message
    ("zero-size array to reduction operation " ++ operation
     ++ " which has no identity")%string).

Definition min (a : list Q) : result Q :=
  match a with
  | [] => Raise (zero_size_array "minimum")
  | x :: a' => Ok (fold_left (fun m y => if Qle_bool m y then m else y) a' x)
  end.

Definition max (a : list Q) : result Q :=
  match a with
  | [] => Raise (zero_size_array "maximum")
  | x :: a' => Ok (fold_left (fun m y => if Qle_bool y m then m else y) a' x)
  end.

(** [np.percentile(a, q)], default method: linear interpolation between
    the two order statistics around the virtual index [(n - 1) * q / 100]. *)
Definition percentile (a : list Q) (q : Q) : Q :=
  let s := sort a in
  let n := length a in
  let virtual_index := inject_Z (Z.of_nat (n - 1)) * (q / 100) in
  let previous := Z.to_nat (Qfloor virtual_index) in
  let next := Nat.min (previous + 1) (n - 1) in
  let gamma := virtual_index - inject_Z (Z.of_nat previous) in
  nth previous s 0 + gamma * (nth next s 0 - nth previous s 0).

End np.

(** ** cyber_risk_simulator.py: the simulation engine *)

Record SimulationMetrics := {
  total_loss : Q;
  mean_loss : Q;
  median_loss : Q;
  std_dev_loss : R;
  min_loss : Q;
  max_loss : Q;
  percentile_95_loss : Q
}.

(** One row of the [results] data frame. *)
Record result_row := {
  simulation_id : nat;
  attack_id : nat;
  cost : Q
}.

(** ** The file system behind [DataFrame.to_csv]

    Writing the CSV file can fail, with an [OSError] for instance.  Whether
    a write fails is for the file system to say, given the tables written
    so far and the table to write; [None] is a write that succeeds. *)
Class FileSystem := {
  to_csv_error : list (list result_row) -> list result_row -> option exn
}.

Record CyberRiskSimulator := {
  industry : Industry;
  revenue : Q;
  num_simulations : Z;
  freq_param : Q;
  sev_param : Q;
  results : list result_row
}.

Definition CyberRiskSimulator_init (stats : StatsTable) (industry : Industry)
    (revenue : Q) (num_simulations : Z) : result CyberRiskSimulator :=
  match _get_industry_revenue_params stats industry revenue with
  | Raise e => Raise e
  | Ok (freq, sev) =>
    Ok {| industry := industry; revenue := revenue;
          num_simulations := num_simulations;
          freq_param := freq; sev_param := sev; results := [] |}
  end.

(** [num_simulations] defaults to [10_000]. *)
Definition default_num_simulations : Z := 10000.

Section Engine.
Context {RS : RandomSource} {FS : FileSystem}.

(** What a method call can read and write: the object, the random state
    and the CSV files written so far. *)
Record process := {
  self : CyberRiskSimulator;
  random_state : rng_state;
  csv_files : list (list result_row)
}.

Definition M (A : Type) : Type := process -> result A * process.

Definition ret {A} (a : A) : M A := fun p => (Ok a, p).

Definition raise {A} (e : exn) : M A := fun p => (Raise e, p).

Definition bind {A B} (c : M A) (k : A -> M B) : M B :=
  fun p => match c p with
           | (Ok a, p') => k a p'
           | (Raise e, p') => (Raise e, p')
           end.

Notation "'let!' x ':=' c 'in' k" := (bind c (fun x => k))
  (at level 10, x name, c at level 100, k at level 200).

Definition set_random_state (s : rng_state) (p : process) : process :=
  {| self := self p; random_state := s; csv_files := csv_files p |}.

Definition set_results (rows : list result_row) (p : process) : process :=
  {| self := {| industry := industry (self p); revenue := revenue (self p);
                num_simulations := num_simulations (self p);
                freq_param := freq_param (self p);
                sev_param := sev_param (self p); results := rows |};
     random_state := random_state p; csv_files := csv_files p |}.

Definition draw_poisson (mu : Q) (size : Z) : M (list nat) :=
  fun p => let (r, s) := poisson_rvs mu size (random_state p) in
           (r, set_random_state s p).

Definition draw_norm (loc scale : Q) : M Q :=
  fun p => let (r, s) := norm_rvs loc scale (random_state p) in
           (r, set_random_state s p).

Definition _simulate_attacks : M (list nat) :=
  fun p => draw_poisson (freq_param (self p)) (num_simulations (self p)) p.

(** [losses[i] += cost] *)
Definition add_at (i : nat) (cost : Q) (losses : list Q) : M (list Q) :=
  match losses !! i with
  | Some x => ret (<[i := x + cost]> losses)
  | None => raise (IndexError i)
  end.

(** The inner loop, [for attack_id in range(attack_count)], from
    [attack_id] on with [remaining] iterations to go. *)
Fixpoint attacks_loop (i attack_id remaining : nat)
    (losses : list Q) (data_to_append : list result_row)
    : M (list Q * list result_row) :=
  match remaining with
  | O => ret (losses, data_to_append)
  | S remaining' =>
    fun p =>
      (let! cost := draw_norm (sev_param (self p)) (sev_param (self p) * (1 # 10)) in
       let! losses' := add_at i cost losses in
       attacks_loop i (S attack_id) remaining' losses'
         (data_to_append ++
            [{| simulation_id := i + 1; attack_id := attack_id + 1; cost := cost |}])) p
  end.

(** The outer loop, [for i, attack_count in enumerate(attack_counts)]. *)
Fixpoint runs_loop (i : nat) (attack_counts : list nat)
    (losses : list Q) (data_to_append : list result_row)
    : M (list Q * list result_row) :=
  match attack_counts with
  | [] => ret (losses, data_to_append)
  | attack_count :: rest =>
    let! st := attacks_loop i 0 attack_count losses data_to_append in
    runs_loop (S i) rest (fst st) (snd st)
  end.

Definition _simulate_losses (attack_counts : list nat) : M (list Q) :=
  let! st := runs_loop 0 attack_counts (replicate (length attack_counts) 0) [] in
  fun p => (Ok (fst st), set_results (results (self p) ++ snd st) p).

(** [to_csv] either raises, and no file is written, or writes the result
    table as it is at this moment. *)
Definition _save_results_to_csv : M unit :=
  fun p =>
    match to_csv_error (csv_files p) (results (self p)) with
    | Some e => (Raise e, p)
    | None =>
      (Ok tt, {| self := self p; random_state := random_state p;
                 csv_files := csv_files p ++ [results (self p)] |})
    end.

(** The block of [run_simulation] under [# Compute metrics]. *)
Definition compute_metrics (losses : list Q) : result SimulationMetrics :=
  let total_loss := np.sum losses in
  let mean_loss := np.mean losses in
  let median_loss := np.median losses in
  let std_dev_loss := np.std losses in
  match np.min losses with
  | Raise e => Raise e
  | Ok min_loss =>
    match np.max losses with
    | Raise e => Raise e
    | Ok max_loss =>
      let percentile_95_loss := np.percentile losses 95 in
      Ok {| total_loss := total_loss; mean_loss := mean_loss;
            median_loss := median_loss; std_dev_loss := std_dev_loss;
            min_loss := min_loss; max_loss := max_loss;
            percentile_95_loss := percentile_95_loss |}
    end
  end.

Definition run_simulation (save_to_csv : bool) : M SimulationMetrics :=
  let! attack_counts := _simulate_attacks in
  let! losses := _simulate_losses attack_counts in
  let! saved := (if save_to_csv then _save_results_to_csv else ret tt) in
  fun p => (compute_metrics losses, p).

(** Start of a process: a fresh object, the random state as it is, no
    file written. *)
Definition start (sim : CyberRiskSimulator) (s : rng_state) : process :=
  {| self := sim; random_state := s; csv_files := [] |}.

End Engine.

Notation "'let!' x ':=' c 'in' k" := (bind c (fun x => k))
  (at level 10, x name, c at level 100, k at level 200).

(** ** Random sources used to run the engine *)

(** The test double of [test_run_simulation]: [poisson.rvs] patched to
    return a fixed array and [norm.rvs] a fixed value, whatever the
    arguments. *)
Definition mock_source (attack_counts : list nat) (cost : Q) : RandomSource :=
  {| rng_state := unit;
     poisson_rvs := fun _ _ s => (Ok attack_counts, s);
     norm_rvs := fun _ _ s => (Ok cost, s) |}.

(** A recorded generator: the state is what is left of the Poisson arrays
    and of the Normal values still to be handed out, so that a draw
    advances the state as a seeded generator does. *)
Record tape := {
  poisson_tape : list (list nat);
  norm_tape : list Q
}.

Definition tape_exhausted : exn := ValueError (Library_message "tape exhausted").

Definition tape_source : RandomSource :=
  {| rng_state := tape;
     poisson_rvs := fun _ _ t =>
       match poisson_tape t with
       | [] => (Raise tape_exhausted, t)
       | a :: rest => (Ok a, {| poisson_tape := rest; norm_tape := norm_tape t |})
       end;
     norm_rvs := fun _ _ t =>
       match norm_tape t with
       | [] => (Raise tape_exhausted, t)
       | c :: rest => (Ok c, {| poisson_tape := poisson_tape t; norm_tape := rest |})
       end |}.

(** Two file systems: one on which every write succeeds, and a read-only
    one, on which every write raises. *)
Definition writable_file_system : FileSystem :=
  {| to_csv_error := fun _ _ => None |}.

Definition read_only_file_system : FileSystem :=
  {| to_csv_error := fun _ _ => Some (OSError "Read-only file system") |}.

(** The statistics table of [test_get_industry_revenue_params]. *)
Definition band_entry (frequency cost : Q) : gmap string Q :=
  <["cost"%string := cost]> (<["frequency"%string := frequency]> ∅).

Definition test_stats : StatsTable :=
  <["finance"%string :=
      <["1B"%string := band_entry 20 4000]>
      (<["500M"%string := band_entry 15 3000]>
      (<["100M"%string := band_entry 10 2000]>
      (<["10M"%string := band_entry 5 1000]> ∅)))]> ∅.

(** The engine of [test_run_simulation]: parameters [(0.3, 5.2)]. *)
Definition test_simulator (num_simulations : Z) : CyberRiskSimulator :=
  {| industry := HEALTHCARE; revenue := 100; num_simulations := num_simulations;
     freq_param := 3 # 10; sev_param := 52 # 10; results := [] |}.

(** The key under which an industry is looked up: [industry.name.lower()]. *)
Definition stats_key (i : Industry) : string := str_lower (Industry_name i).

(** ** The draws of one call, listed

    What [_simulate_losses] is compared with: the costs obtained by asking
    the random source [n] times in a row for a Normal variate of the given
    location and scale, the split of such a list into one chunk per run,
    and the rows of the per-event log that the chunks stand for. *)
Section Draws.
Context {RS : RandomSource}.

Fixpoint draw_costs (loc scale : Q) (n : nat) (s : rng_state)
    : result (list Q) * rng_state :=
  match n with
  | O => (Ok [], s)
  | S n' =>
    match norm_rvs loc scale s with
    | (Raise e, s1) => (Raise e, s1)
    | (Ok c, s1) =>
      match draw_costs loc scale n' s1 with
      | (Raise e, s2) => (Raise e, s2)
      | (Ok cs, s2) => (Ok (c :: cs), s2)
      end
    end
  end.

(** The process after a call that drew up to the state [s] and appended
    [rows] to the result table. *)
Definition after_losses (s : rng_state) (rows : list result_row) (p : process)
    : process :=
  set_results (results (self p) ++ rows) (set_random_state s p).

(** The process after [to_csv] wrote the result table, when asked to and
    when the write succeeded. *)
Definition after_save (save_to_csv : bool) (p : process) : process :=
  if save_to_csv
  then {| self := self p; random_state := random_state p;
          csv_files := csv_files p ++ [results (self p)] |}
  else p.
End Draws.

Fixpoint split_runs (attack_counts : list nat) (costs : list Q) : list (list Q) :=
  match attack_counts with
  | [] => []
  | n :: rest => take n costs :: split_runs rest (drop n costs)
  end.

(** Rows of run [i] (0-based), its attacks numbered from [attack_id] (0-based). *)
Fixpoint rows_of_run (i attack_id : nat) (costs : list Q) : list result_row :=
  match costs with
  | [] => []
  | c :: costs' =>
    {| simulation_id := i + 1; attack_id := attack_id + 1; cost := c |}
      :: rows_of_run i (S attack_id) costs'
  end.

Fixpoint rows_of_runs (i : nat) (runs : list (list Q)) : list result_row :=
  match runs with
  | [] => []
  | costs :: runs' => rows_of_run i 0 costs ++ rows_of_runs (S i) runs'
  end.

(** A sequence of calls of [run_simulation] on one engine, one flag
    [save_to_csv] per call, whatever each call returns. *)
Fixpoint run_simulation_calls {RS : RandomSource} {FS : FileSystem}
    (flags : list bool) (p : process)
    : process :=
  match flags with
  | [] => p
  | save_to_csv :: flags' =>
    run_simulation_calls flags' (snd (run_simulation save_to_csv p))
  end.

(** ** NumPy reductions, in binary64

    The arrays of the engine hold IEEE 754 binary64 numbers, and every
    reduction rounds.  The definitions follow NumPy's implementation of the
    reductions for a one-dimensional [float64] array. *)
Module np64.

(** [float(n)] for an array length, and [float(i)] for an index. *)
Definition of_nat (n : nat) : float := PrimFloat.of_uint63 (Uint63.of_Z (Z.of_nat n)).

Definition of_Z (z : Z) : float :=
  if (z <? 0)%Z then PrimFloat.opp (PrimFloat.of_uint63 (Uint63.of_Z (- z)))
  else PrimFloat.of_uint63 (Uint63.of_Z z).

(** [np.floor] of a finite number, as an integer. *)
Definition floor (x : float) : Z :=
  match Prim2SF x with
  | S754_finite s m e =>
    let v := if s then Z.neg m else Z.pos m in
    if (0 <=? e)%Z then Z.shiftl v e else Z.shiftr v (- e)
  | _ => 0%Z
  end.



(** The partial sum of the numbers at the places [j], [j + 8], [j + 16],
    ... of the longest prefix of [a] whose length is a multiple of 8. *)
Definition partial_sum (a : list float) (j : nat) : float :=
  fold_left PrimFloat.add
    (map (fun k => nth (j + 8 * k) a 0%float) (seq 1 (length a / 8 - 1)))
    (nth j a 0%float).

(** The sum of 8 to 128 numbers: the eight partial sums are added in
    pairs, and the numbers after the prefix are then added one by one. *)
Definition block_sum (a : list float) : float :=
  let r := partial_sum a in
  let res := ((r 0%nat + r 1%nat) + (r 2%nat + r 3%nat)
              + ((r 4%nat + r 5%nat) + (r 6%nat + r 7%nat)))%float in
  fold_left PrimFloat.add (drop (length a - length a mod 8) a) res.

(** Pairwise summation, the algorithm of [np.add.reduce]: fewer than 8
    numbers are added from left to right; up to 128 numbers are added by
    [block_sum]; a longer array is cut in two, the first part of a length
    divisible by 8, and the sums of the parts are added.  [depth] bounds
    the number of cuts. *)
Fixpoint pairwise_sum (depth : nat) (a : list float) : float :=
  let n := length a in
  if (n <? 8)%nat then fold_left PrimFloat.add a 0%float
  else if (n <=? 128)%nat then block_sum a
  else
    match depth with
    | O => block_sum a
    | S depth' =>
      let n2 := (n / 2 - (n / 2) mod 8)%nat in
      (pairwise_sum depth' (take n2 a) + pairwise_sum depth' (drop n2 a))%float
    end.

(** [np.sum(a)]: the identity 0 plus the pairwise sum. *)
Definition sum (a : list float) : float :=
  (0 + pairwise_sum (length a) a)%float.

(** [np.mean(a)]: the sum divided by the length. *)
Definition mean (a : list float) : float := (sum a / of_nat (length a))%float.

(** The order of a sorted array: ascending, NaN last. *)
Definition before (x y : float) : bool := PrimFloat.leb x y || PrimFloat.is_nan y.

Fixpoint insert_sorted (x : float) (s : list float) : list float :=
  match s with
  | [] => [x]
  | y :: s' => if before x y then x :: y :: s' else y :: insert_sorted x s'
  end.

Definition sort (a : list float) : list float := foldr insert_sorted [] a.

(** [np.median(a)]: the mean of the middle element, or of the two middle
    elements, of the sorted array; NaN when the array holds a NaN. *)
Definition median (a : list float) : float :=
  let part := sort a in
  let sz := length a in
  let index := (sz / 2)%nat in
  let rout :=
    if Nat.odd sz then mean (take 1 (drop index part))
    else mean (take 2 (drop (index - 1) part)) in
  if PrimFloat.is_nan (List.last part 0%float) then PrimFloat.nan else rout.

(** [np.var(a)], [ddof = 0]: the mean of the squared deviations from the
    mean. *)
Definition var (a : list float) : float :=
  let arrmean := (sum a / of_nat (length a))%float in
  let x := map (fun v => (v - arrmean)%float) a in
  let x := map (fun v => (v * v)%float) x in
  (sum x / of_nat (length a))%float.

Definition std (a : list float) : float := PrimFloat.sqrt (var a).

(** [np.min(a)] and [np.max(a)]: a NaN, once met, is kept. *)
Definition min (a : list float) : result float :=
  match a with
  | [] => Raise (np.zero_size_array "minimum")
  | x :: a' =>
    Ok (fold_left (fun m y => if PrimFloat.leb m y || PrimFloat.is_nan m then m else y)
                  a' x)
  end.

Definition max (a : list float) : result float :=
  match a with
  | [] => Raise (np.zero_size_array "maximum")
  | x :: a' =>
    Ok (fold_left (fun m y => if PrimFloat.leb y m || PrimFloat.is_nan m then m else y)
                  a' x)
  end.

(** Linear interpolation between [a] and [b], computed from the nearer
    end. *)
Definition lerp (a b t : float) : float :=
  let diff_b_a := (b - a)%float in
  if PrimFloat.leb 0.5 t then (b - diff_b_a * (1 - t))%float
  else (a + diff_b_a * t)%float.

(** [arr[i]], a negative index counting from the end. *)
Definition item (arr : list float) (i : Z) : float :=
  nth (Z.to_nat (if (i <? 0)%Z then Z.of_nat (length arr) + i else i)) arr PrimFloat.nan.

(** [np.percentile(a, q)], default method: linear interpolation between
    the two elements of the sorted array around the virtual index
    [(n - 1) * (q / 100)]; NaN when the array holds a NaN. *)
Definition percentile (a : list float) (q : float) : float :=
  let quantile := (q / 100)%float in
  let arr := sort a in
  let last_index := (Z.of_nat (length a) - 1)%Z in
  let virtual_index := (of_Z last_index * quantile)%float in
  let previous_index :=
    if PrimFloat.is_nan virtual_index then (-1)%Z
    else if PrimFloat.ltb virtual_index 0 then 0%Z
    else if PrimFloat.leb (of_Z last_index) virtual_index then (-1)%Z
    else floor virtual_index in
  let next_index :=
    if PrimFloat.is_nan virtual_index then (-1)%Z
    else if PrimFloat.ltb virtual_index 0 then 0%Z
    else if PrimFloat.leb (of_Z last_index) virtual_index then (-1)%Z
    else (floor virtual_index + 1)%Z in
  let gamma := (virtual_index - of_Z previous_index)%float in
  if PrimFloat.is_nan (List.last arr 0%float) then PrimFloat.nan
  else lerp (item arr previous_index) (item arr next_index) gamma.

End np64.

(** ** The simulation engine in binary64

    The engine once more, with the numbers it computes on read as
    binary64: the parameters, the drawn costs, the per-run losses and the
    metrics. *)
Module float64.

(** The random variates: the parameters passed and the costs returned are
    binary64 numbers. *)
Class RandomSource := {
  rng_state : Type;
  poisson_rvs : float -> Z -> rng_state -> result (list nat) * rng_state;
  norm_rvs : float -> float -> rng_state -> result float * rng_state
}.

Record SimulationMetrics := {
  total_loss : float;
  mean_loss : float;
  median_loss : float;
  std_dev_loss : float;
  min_loss : float;
  max_loss : float;
  percentile_95_loss : float
}.

(** One row of the [results] data frame. *)
Record result_row := {
  simulation_id : nat;
  attack_id : nat;
  cost : float
}.

(** Whether [to_csv] raises, given the tables written so far and the table
    to write. *)
Class FileSystem := {
  to_csv_error : list (list result_row) -> list result_row -> option exn
}.

Record CyberRiskSimulator := {
  industry : Industry;
  revenue : Q;
  num_simulations : Z;
  freq_param : float;
  sev_param : float;
  results : list result_row
}.

Section Engine.
Context {RS : RandomSource} {FS : FileSystem}.

(** What a method call can read and write: the object, the random state
    and the CSV files written so far. *)
Record process := {
  self : CyberRiskSimulator;
  random_state : rng_state;
  csv_files : list (list result_row)
}.

Definition M (A : Type) : Type := process -> result A * process.

Definition ret {A} (a : A) : M A := fun p => (Ok a, p).

Definition raise {A} (e : exn) : M A := fun p => (Raise e, p).

Definition bind {A B} (c : M A) (k : A -> M B) : M B :=
  fun p => match c p with
           | (Ok a, p') => k a p'
           | (Raise e, p') => (Raise e, p')
           end.

#[warnings="-notation-overridden"]
Local Notation "'let!' x ':=' c 'in' k" := (bind c (fun x => k))
  (at level 10, x name, c at level 100, k at level 200).

Definition set_random_state (s : rng_state) (p : process) : process :=
  {| self := self p; random_state := s; csv_files := csv_files p |}.

Definition set_results (rows : list result_row) (p : process) : process :=
  {| self := {| industry := industry (self p); revenue := revenue (self p);
                num_simulations := num_simulations (self p);
                freq_param := freq_param (self p);
                sev_param := sev_param (self p); results := rows |};
     random_state := random_state p; csv_files := csv_files p |}.

Definition draw_poisson (mu : float) (size : Z) : M (list nat) :=
  fun p => let (r, s) := poisson_rvs mu size (random_state p) in
           (r, set_random_state s p).

Definition draw_norm (loc scale : float) : M float :=
  fun p => let (r, s) := norm_rvs loc scale (random_state p) in
           (r, set_random_state s p).

Definition _simulate_attacks : M (list nat) :=
  fun p => draw_poisson (freq_param (self p)) (num_simulations (self p)) p.

(** [losses[i] += cost] *)
Definition add_at (i : nat) (cost : float) (losses : list float) : M (list float) :=
  match losses !! i with
  | Some x => ret (<[i := (x + cost)%float]> losses)
  | None => raise (IndexError i)
  end.

Fixpoint attacks_loop (i attack_id remaining : nat)
    (losses : list float) (data_to_append : list result_row)
    : M (list float * list result_row) :=
  match remaining with
  | O => ret (losses, data_to_append)
  | S remaining' =>
    fun p =>
      (let! cost := draw_norm (sev_param (self p)) (sev_param (self p) * 0.1)%float in
       let! losses' := add_at i cost losses in
       attacks_loop i (S attack_id) remaining' losses'
         (data_to_append ++
            [{| simulation_id := i + 1; attack_id := attack_id + 1; cost := cost |}])) p
  end.

Fixpoint runs_loop (i : nat) (attack_counts : list nat)
    (losses : list float) (data_to_append : list result_row)
    : M (list float * list result_row) :=
  match attack_counts with
  | [] => ret (losses, data_to_append)
  | attack_count :: rest =>
    let! st := attacks_loop i 0 attack_count losses data_to_append in
    runs_loop (S i) rest (fst st) (snd st)
  end.

Definition _simulate_losses (attack_counts : list nat) : M (list float) :=
  let! st := runs_loop 0 attack_counts (replicate (length attack_counts) 0%float) [] in
  fun p => (Ok (fst st), set_results (results (self p) ++ snd st) p).

Definition _save_results_to_csv : M unit :=
  fun p =>
    match to_csv_error (csv_files p) (results (self p)) with
    | Some e => (Raise e, p)
    | None =>
      (Ok tt, {| self := self p; random_state := random_state p;
                 csv_files := csv_files p ++ [results (self p)] |})
    end.

(** The block of [run_simulation] under [# Compute metrics]. *)
Definition compute_metrics (losses : list float) : result SimulationMetrics :=
  let total_loss := np64.sum losses in
  let mean_loss := np64.mean losses in
  let median_loss := np64.median losses in
  let std_dev_loss := np64.std losses in
  match np64.min losses with
  | Raise e => Raise e
  | Ok min_loss =>
    match np64.max losses with
    | Raise e => Raise e
    | Ok max_loss =>
      let percentile_95_loss := np64.percentile losses 95 in
      Ok {| total_loss := total_loss; mean_loss := mean_loss;
            median_loss := median_loss; std_dev_loss := std_dev_loss;
            min_loss := min_loss; max_loss := max_loss;
            percentile_95_loss := percentile_95_loss |}
    end
  end.

Definition run_simulation (save_to_csv : bool) : M SimulationMetrics :=
  let! attack_counts := _simulate_attacks in
  let! losses := _simulate_losses attack_counts in
  let! saved := (if save_to_csv then _save_results_to_csv else ret tt) in
  fun p => (compute_metrics losses, p).

Definition start (sim : CyberRiskSimulator) (s : rng_state) : process :=
  {| self := sim; random_state := s; csv_files := [] |}.

(** The costs obtained by asking the random source [n] times in a row. *)
Fixpoint draw_costs (loc scale : float) (n : nat) (s : rng_state)
    : result (list float) * rng_state :=
  match n with
  | O => (Ok [], s)
  | S n' =>
    match norm_rvs loc scale s with
    | (Raise e, s1) => (Raise e, s1)
    | (Ok c, s1) =>
      match draw_costs loc scale n' s1 with
      | (Raise e, s2) => (Raise e, s2)
      | (Ok cs, s2) => (Ok (c :: cs), s2)
      end
    end
  end.

(** The process after a call that drew up to the state [s] and appended
    [rows] to the result table. *)
Definition after_losses (s : rng_state) (rows : list result_row) (p : process)
    : process :=
  set_results (results (self p) ++ rows) (set_random_state s p).

End Engine.

(** The costs of a call, one chunk per run. *)
Fixpoint split_runs (attack_counts : list nat) (costs : list float) : list (list float) :=
  match attack_counts with
  | [] => []
  | n :: rest => take n costs :: split_runs rest (drop n costs)
  end.

(** Rows of run [i] (0-based), its attacks numbered from [attack_id] (0-based). *)
Fixpoint rows_of_run (i attack_id : nat) (costs : list float) : list result_row :=
  match costs with
  | [] => []
  | c :: costs' =>
    {| simulation_id := i + 1; attack_id := attack_id + 1; cost := c |}
      :: rows_of_run i (S attack_id) costs'
  end.

Fixpoint rows_of_runs (i : nat) (runs : list (list float)) : list result_row :=
  match runs with
  | [] => []
  | costs :: runs' => rows_of_run i 0 costs ++ rows_of_runs (S i) runs'
  end.


(** The test double of [test_run_simulation]. *)
Definition mock_source (attack_counts : list nat) (cost : float) : RandomSource :=
  {| rng_state := unit;
     poisson_rvs := fun _ _ s => (Ok attack_counts, s);
     norm_rvs := fun _ _ s => (Ok cost, s) |}.

Definition writable_file_system : FileSystem :=
  {| to_csv_error := fun _ _ => None |}.

(** The engine of [test_run_simulation]: parameters [(0.3, 5.2)]. *)
Definition test_simulator (num_simulations : Z) : CyberRiskSimulator :=
  {| industry := HEALTHCARE; revenue := 100; num_simulations := num_simulations;
     freq_param := 0.3; sev_param := 5.2; results := [] |}.

End float64.

(** ** cyber_risk_simulator.py: the cached statistics file *)

(** What [load_stats] reads and writes: the module-level [stats_cache]
    ([None] at import) and what opening and parsing the statistics file
    yields at this moment: an exception, JSON [null] or a table. *)
Record stats_store := {
  stats_cache : option StatsTable;
  stats_file : result (option StatsTable)
}.

Definition load_stats (st : stats_store) : result (option StatsTable) * stats_store :=
  match stats_cache st with
  | Some table => (Ok (Some table), st)
  | None =>
    match stats_file st with
    | Raise e => (Raise e, st)
    | Ok loaded => (Ok loaded, {| stats_cache := loaded; stats_file := stats_file st |})
    end
  end.

(** What can happen to the store between and during calls: the file is
    rewritten, or [load_stats] is called. *)
Inductive stats_event :=
| Rewrite_file (content : result (option StatsTable))
| Load_stats.

Fixpoint stats_run (events : list stats_event) (st : stats_store)
    : list (result (option StatsTable)) * stats_store :=
  match events with
  | [] => ([], st)
  | Rewrite_file content :: events' =>
    stats_run events' {| stats_cache := stats_cache st; stats_file := content |}
  | Load_stats :: events' =>
    let (r, st') := load_stats st in
    let (rs, st'') := stats_run events' st' in
    (r :: rs, st'')
  end.

(** ** web_service.py *)
Module web_service.

(** The two table names read from [config_dict]. *)
Record config := {
  synthetic_companies_table : string;
  simulations_table : string
}.

(** A value bound to a [?] of a statement. *)
Inductive sql_param :=
| Sql_text (s : string)
| Sql_integer (z : Z).

(** A column of a fetched row. *)
Inductive sql_value :=
| Sql_null
| Sql_number (q : Q).

(** What [parse_revenue_band] hands on: a member or [None]. *)
Definition band_object (o : option RevenueBand) : pyobj :=
  match o with
  | Some b => PyRevenueBand b
  | None => PyNone
  end.

(** [map(f, xs)] consumed by a list comprehension: the first exception
    ends it. *)
Fixpoint map_raising {A B} (f : A -> result B) (xs : list A) : result (list B) :=
  match xs with
  | [] => Ok []
  | x :: xs' =>
    match f x with
    | Raise e => Raise e
    | Ok y =>
      match map_raising f xs' with
      | Raise e => Raise e
      | Ok ys => Ok (y :: ys)
      end
    end
  end.

(** The first two statements of
    [fetch_cost_by_revenue_and_industry_from_db]. *)
Definition segmentation_bounds (revenue_bands_str : list string)
    : result (list (Z * Z)) :=
  let revenue_bands :=
    map (fun band => band_object (parse_revenue_band band)) revenue_bands_str in
  map_raising get_revenue_boundaries_by_band revenue_bands.

Definition revenue_clause : string := "? < revenue_usd AND revenue_usd <= ?".

(** [for lower, upper in bounds: ...] *)
Fixpoint revenue_loop (bounds : list (Z * Z))
    (revenue_clauses : list string) (revenue_params : list Z)
    : list string * list Z :=
  match bounds with
  | [] => (revenue_clauses, revenue_params)
  | (lower, upper) :: bounds' =>
    revenue_loop bounds' (revenue_clauses ++ [revenue_clause])
                 (revenue_params ++ [lower; upper])
  end.

(** [s * n] *)
Fixpoint str_repeat (s : string) (n : nat) : string :=
  match n with
  | O => EmptyString
  | S n' => (s ++ str_repeat s n')%string
  end.

(** The characters of a string, as [join] iterates over them. *)
Fixpoint characters (s : string) : list string :=
  match s with
  | EmptyString => []
  | String c s' => String c EmptyString :: characters s'
  end.

(** The line break and indentation inside the triple-quoted statement. *)
Definition line_break : string :=
  String "010"%char "               ".

Definition query_for_companies (cfg : config) (industries_str : list string)
    (bounds : list (Z * Z)) (revenue_clauses : list string) : string :=
  ("SELECT company_id" ++ line_break ++
   "FROM " ++ synthetic_companies_table cfg ++ line_break ++
   "WHERE industry IN (" ++
   String.concat "," (characters (str_repeat "?" (length industries_str))) ++
   ") AND " ++ line_break ++
   "(revenue_usd < 0 " ++
   nth (if (0 <? length bounds)%nat then 1 else 0)%nat
       [""; "OR (" ++ String.concat " OR " revenue_clauses ++ ")"] "" ++
   ")")%string.

Definition query_for_avg_cost (cfg : config) (companies_query : string) : string :=
  ("SELECT avg(mean_loss) FROM " ++ simulations_table cfg ++
   " WHERE company_id in (" ++ companies_query ++ ")")%string.

(** The statement and the parameter list passed to [cursor.execute]. *)
Definition segmentation_statement (cfg : config)
    (revenue_bands_str industries_str : list string)
    : result (string * list sql_param) :=
  match segmentation_bounds revenue_bands_str with
  | Raise e => Raise e
  | Ok bounds =>
    let (revenue_clauses, revenue_params) := revenue_loop bounds [] [] in
    Ok (query_for_avg_cost cfg
          (query_for_companies cfg industries_str bounds revenue_clauses),
        map Sql_text industries_str ++ map Sql_integer revenue_params)
  end.

(** The body of [fetch_cost_by_revenue_and_industry_from_db]; [execute]
    stands for [cursor.execute] followed by [cursor.fetchone] on the
    database as it is. *)
Definition fetch_cost_by_revenue_and_industry_from_db (cfg : config)
    (execute : string -> list sql_param -> result (option (list sql_value)))
    (revenue_bands_str industries_str : list string)
    : result (option (list sql_value)) :=
  match segmentation_statement cfg revenue_bands_str industries_str with
  | Raise e => Raise e
  | Ok (statement, params) => execute statement params
  end.

(** What the filter on [revenue_usd] in [query_for_companies] selects,
    once its parameters are bound: one clause per pair of bounds, joined by
    [OR], after the ever-present [revenue_usd < 0]. *)
Definition clause_selects (lower upper : Z) (revenue_usd : Q) : bool :=
  Qlt_bool (inject_Z lower) revenue_usd && Qle_bool revenue_usd (inject_Z upper).

Definition revenue_filter_selects (bounds : list (Z * Z)) (revenue_usd : Q) : bool :=
  Qlt_bool revenue_usd 0 ||
  existsb (fun b => clause_selects (fst b) (snd b) revenue_usd) bounds.

(** The class name of an exception, as [type(e).__name__] gives it. *)
Definition exception_type_name (e : exn) : string :=
  match e with
  | ValueError _ => "ValueError"
  | NameError _ => "NameError"
  | AttributeError _ => "AttributeError"
  | KeyError _ => "KeyError"
  | IndexError _ => "IndexError"
  | TypeError _ => "TypeError"
  | OSError _ => "OSError"
  end.

(** The dictionaries the two views pass to [jsonify]. *)
Inductive json_body :=
| Average_simulation_cost (v : sql_value)
| Error_message (text : string)
| Error_exception (e : exn).

(** [jsonify(body)]: numbers, [None] and strings are serialised; an
    exception object is not JSON serializable, and the encoder raises
    [TypeError]. *)
Definition jsonify (body : json_body) : result json_body :=
  match body with
  | Error_exception e =>
    Raise (TypeError ("Object of type " ++ exception_type_name e
                      ++ " is not JSON serializable"))
  | _ => Ok body
  end.

(** [return jsonify(body), status] *)
Definition respond (body : json_body) (status : Z) : result (json_body * Z) :=
  match jsonify body with
  | Raise e => Raise e
  | Ok response => Ok (response, status)
  end.

(** [try: block  except Exception as e: return jsonify({'error': e}), 500]:
    an exception raised by the handler itself leaves the view. *)
Definition try_except (block : result (json_body * Z)) : result (json_body * Z) :=
  match block with
  | Ok response => Ok response
  | Raise e => respond (Error_exception e) 500
  end.

(** Truth value of a fetched column: [None] and 0 are false. *)
Definition truthy (v : sql_value) : bool :=
  match v with
  | Sql_null => false
  | Sql_number q => negb (Qeq_bool q 0)
  end.

(** [result[0]] on what [fetchone] returned. *)
Definition first_column (fetched_row : option (list sql_value)) : result sql_value :=
  match fetched_row with
  | None => Raise (TypeError "'NoneType' object is not subscriptable")
  | Some [] => Raise (IndexError 0)
  | Some (v :: _) => Ok v
  end.

(** [get_results_by_id], given what [fetch_cost_by_company_from_db]
    returned or raised; a view returns a body and a status, or an
    exception leaves it. *)
Definition get_results_by_id (fetched : result (option (list sql_value)))
    : result (json_body * Z) :=
  try_except
    match fetched with
    | Raise e => Raise e
    | Ok (Some (v :: _)) => respond (Average_simulation_cost v) 200
    | Ok _ => respond (Error_message "no company found") 404
    end.

(** [get_results_by_segmentation], given what
    [fetch_cost_by_revenue_and_industry_from_db] returned or raised. *)
Definition get_results_by_segmentation (fetched : result (option (list sql_value)))
    : result (json_body * Z) :=
  try_except
    match fetched with
    | Raise e => Raise e
    | Ok fetched_row =>
      match first_column fetched_row with
      | Raise e => Raise e
      | Ok v =>
        if truthy v then respond (Average_simulation_cost v) 200
        else respond (Error_message "no companies found") 404
      end
    end.

End web_service.

(** How often a character occurs in a string. *)
Fixpoint count_char (c : ascii) (s : string) : nat :=
  match s with
  | EmptyString => 0
  | String d s' => (if Ascii.eqb c d then 1 else 0) + count_char c s'
  end.

(** ** analysis_service.py *)

(** [np.round]: to the nearest integer, a tie to the even one. *)
Definition np_round (x : Q) : Q :=
  let f := Qfloor x in
  let d := x - inject_Z f in
  if Qlt_bool d (1 # 2) then inject_Z f
  else if Qlt_bool (1 # 2) d then inject_Z (f + 1)
  else if Z.even f then inject_Z f else inject_Z (f + 1).

(** The random state of an engine process. *)
Definition process_random_state {RS : RandomSource} (p : process) : rng_state :=
  random_state p.

Module analysis_service.

(** A row of the synthetic-companies frame. *)
Record company := {
  company_id : Z;
  revenue_usd : Q;
  industry : string
}.

(** A row of the simulations table. *)
Record simulation_record (timestamp : Type) := {
  result_company_id : Z;
  result_total_loss : Q;
  result_mean_loss : Q;
  result_timestamp : timestamp
}.
Arguments result_company_id {timestamp}.
Arguments result_total_loss {timestamp}.
Arguments result_mean_loss {timestamp}.
Arguments result_timestamp {timestamp}.

Definition frame_length_error : exn :=
  ValueError (Library_message "All arrays must be of the same length").

(** [pd.DataFrame] of the three columns. *)
Fixpoint data_frame (company_ids : list Z) (revenues : list Q)
    (industry_data : list string) : result (list company) :=
  match company_ids, revenues, industry_data with
  | [], [], [] => Ok []
  | i :: company_ids', r :: revenues', s :: industry_data' =>
    match data_frame company_ids' revenues' industry_data' with
    | Raise e => Raise e
    | Ok rows =>
      Ok ({| company_id := i; revenue_usd := r; industry := s |} :: rows)
    end
  | _, _, _ => Raise frame_length_error
  end.

(** [[e.name.lower() for e in Industry]] *)
Definition industries : list string :=
  map (fun e => str_lower (Industry_name e)) Industry_members.

(** [_generate_synthetic_companies]; [uniform_draws] is what
    [np.random.uniform(1, 1000, n)] returned and [industry_data] what
    [np.random.choice(industries, n)] returned.  The second component is
    the synthetic-companies table after [to_sql(..., if_exists='replace')]. *)
Definition _generate_synthetic_companies (num_companies : nat)
    (uniform_draws : list Q) (industry_data : list string)
    (companies_table : list company)
    : result (list company) * list company :=
  let company_ids := map (fun company_id => Z.of_nat company_id + 1)%Z
                         (seq 0 num_companies) in
  let revenues := map np_round uniform_draws in
  match data_frame company_ids revenues industry_data with
  | Raise e => (Raise e, companies_table)
  | Ok synthetic_companies_df => (Ok synthetic_companies_df, synthetic_companies_df)
  end.

Section RunSimulations.
Context {RS : RandomSource} {FS : FileSystem}.
(** [str.upper], and the clock behind [datetime.now()]: its k-th reading. *)
Variable upper : string -> string.
Variable timestamp : Type.
Variable clock : nat -> timestamp.

(** What [run_simulations] reads and writes besides [self.companies]: the
    simulations table, the random state and the number of clock readings. *)
Record world := {
  simulations_table : list (simulation_record timestamp);
  random_state : rng_state;
  clock_readings : nat
}.

(** The loop over [self.companies.iterrows()]. *)
Fixpoint simulation_loop (stats : StatsTable) (rows : list company)
    (simulation_results : list (simulation_record timestamp))
    (s : rng_state) (t : nat)
    : result (list (simulation_record timestamp)) * rng_state * nat :=
  match rows with
  | [] => (Ok simulation_results, s, t)
  | company :: rows' =>
    match Industry_from_string upper (industry company) with
    | Raise e => (Raise e, s, t)
    | Ok industry =>
      match CyberRiskSimulator_init stats industry (revenue_usd company)
                                    default_num_simulations with
      | Raise e => (Raise e, s, t)
      | Ok simulator =>
        match run_simulation false (start simulator s) with
        | (Raise e, p) => (Raise e, process_random_state p, t)
        | (Ok metrics, p) =>
          simulation_loop stats rows'
            (simulation_results ++
               [{| result_company_id := company_id company;
                   result_total_loss := total_loss metrics;
                   result_mean_loss := mean_loss metrics;
                   result_timestamp := clock t |}])
            (process_random_state p) (S t)
        end
      end
    end
  end.

(** [run_simulations]: the loop, then
    [to_sql(..., if_exists='append')] of the collected rows. *)
Definition run_simulations (stats : StatsTable) (companies : list company)
    (w : world) : result unit * world :=
  match simulation_loop stats companies [] (random_state w) (clock_readings w) with
  | (Raise e, s, t) =>
    (Raise e, {| simulations_table := simulations_table w;
                 random_state := s; clock_readings := t |})
  | (Ok simulation_results, s, t) =>
    (Ok tt, {| simulations_table := simulations_table w ++ simulation_results;
               random_state := s; clock_readings := t |})
  end.

End RunSimulations.
End analysis_service.

(** * Properties *)

(** ** Revenue classifier *)

Lemma Qlt_bool_iff x y : Qlt_bool x y = true <-> x < y.
Proof.
  unfold Qlt_bool. rewrite negb_true_iff. split.
  - intros H. apply Qnot_le_lt. intros Hle. apply Qle_bool_iff in Hle. congruence.
  - intros H. destruct (Qle_bool y x) eqn:E; [|reflexivity].
    apply Qle_bool_iff in E. exfalso. apply (Qlt_not_le _ _ H E).
Qed.

Lemma Qle_bool_false x y : Qle_bool x y = false <-> y < x.
Proof.
  rewrite <- Qlt_bool_iff. unfold Qlt_bool. now rewrite negb_true_iff.
Qed.

Lemma Qlt_bool_false x y : Qlt_bool x y = false <-> y <= x.
Proof.
  unfold Qlt_bool. rewrite negb_false_iff. apply Qle_bool_iff.
Qed.

(** The classifier, case by case. *)
Lemma get_revenue_band_by_revenue_cases r :
  (r < 0 /\ get_revenue_band_by_revenue r = Raise (ValueError (Invalid_revenue r))) \/
  (0 <= r <= 10 /\ get_revenue_band_by_revenue r = Ok BAND_10M) \/
  (10 < r <= 100 /\ get_revenue_band_by_revenue r = Ok BAND_100M) \/
  (100 < r <= 500 /\ get_revenue_band_by_revenue r = Ok BAND_500M) \/
  (500 < r <= 1000 /\ get_revenue_band_by_revenue r = Ok BAND_1B) \/
  (1000 < r /\ get_revenue_band_by_revenue r = Raise (ValueError (Invalid_revenue r))).
Proof.
  unfold get_revenue_band_by_revenue.
  destruct (Qlt_bool r 0) eqn:E0.
  { apply Qlt_bool_iff in E0. now left. }
  apply Qlt_bool_false in E0. right.
  destruct (Qle_bool r 10) eqn:E1.
  { apply Qle_bool_iff in E1. now left. }
  apply Qle_bool_false in E1. right.
  destruct (Qle_bool r 100) eqn:E2.
  { apply Qle_bool_iff in E2. now left. }
  apply Qle_bool_false in E2. right.
  destruct (Qle_bool r 500) eqn:E3.
  { apply Qle_bool_iff in E3. now left. }
  apply Qle_bool_false in E3. right.
  destruct (Qle_bool r 1000) eqn:E4.
  { apply Qle_bool_iff in E4. now left. }
  apply Qle_bool_false in E4. now right.
Qed.

Ltac classify r :=
  destruct (get_revenue_band_by_revenue_cases r)
    as [[? ->]|[[? ->]|[[? ->]|[[? ->]|[[? ->]|[? ->]]]]]].

(** C1. [get_revenue_band_by_revenue] returns a band exactly on
    [0 <= r <= 1000] and raises the invalid-revenue error elsewhere; each
    band is returned exactly on its interval, closed at the upper edge, so
    the four intervals are disjoint and cover [0, 1000]; the boundary values
    of the spec are classified as it lists them. *)
Theorem get_revenue_band_by_revenue_spec (r : Q) :
  ((exists b, get_revenue_band_by_revenue r = Ok b) <-> 0 <= r <= 1000) /\
  (get_revenue_band_by_revenue r = Raise (ValueError (Invalid_revenue r))
     <-> r < 0 \/ 1000 < r) /\
  (forall e, get_revenue_band_by_revenue r = Raise e -> is_InvalidRevenue e = true) /\
  (get_revenue_band_by_revenue r = Ok BAND_10M <-> 0 <= r <= 10) /\
  (get_revenue_band_by_revenue r = Ok BAND_100M <-> 10 < r <= 100) /\
  (get_revenue_band_by_revenue r = Ok BAND_500M <-> 100 < r <= 500) /\
  (get_revenue_band_by_revenue r = Ok BAND_1B <-> 500 < r <= 1000) /\
  get_revenue_band_by_revenue 0 = Ok BAND_10M /\
  get_revenue_band_by_revenue 10 = Ok BAND_10M /\
  get_revenue_band_by_revenue (100001 # 10000) = Ok BAND_100M /\
  get_revenue_band_by_revenue 1000 = Ok BAND_1B /\
  get_revenue_band_by_revenue (10000001 # 10000)
    = Raise (ValueError (Invalid_revenue (10000001 # 10000))) /\
  get_revenue_band_by_revenue (-1 # 10000)
    = Raise (ValueError (Invalid_revenue (-1 # 10000))).
Proof.
  split; [|split; [|split; [|split; [|split; [|split; [|split]]]]]].
  - classify r; (split; [intros [b Hb]; try discriminate; lra
                        | intros Hr; try lra; eexists; reflexivity]).
  - classify r; (split; [intros He; try discriminate; lra
                        | intros Hr; try lra; reflexivity]).
  - classify r; intros e He; try discriminate; injection He as <-; reflexivity.
  - classify r; (split; [intros He; try discriminate; lra
                        | intros Hr; try lra; reflexivity]).
  - classify r; (split; [intros He; try discriminate; lra
                        | intros Hr; try lra; reflexivity]).
  - classify r; (split; [intros He; try discriminate; lra
                        | intros Hr; try lra; reflexivity]).
  - classify r; (split; [intros He; try discriminate; lra
                        | intros Hr; try lra; reflexivity]).
  - repeat split; reflexivity.
Qed.

(** C9. For a revenue in [0, 1000], the boundaries of its band enclose it. *)
Theorem boundaries_contain_revenue (r : Q) :
  0 <= r <= 1000 ->
  exists b lo hi,
    get_revenue_band_by_revenue r = Ok b /\
    get_revenue_boundaries_by_band (PyRevenueBand b) = Ok (lo, hi) /\
    inject_Z lo <= r <= inject_Z hi.
Proof.
  intros Hr. classify r; try lra.
  - exists BAND_10M, 0%Z, 10%Z. repeat split; [apply H | apply H].
  - exists BAND_100M, 10%Z, 100%Z. repeat split; [apply Qlt_le_weak, H | apply H].
  - exists BAND_500M, 100%Z, 500%Z. repeat split; [apply Qlt_le_weak, H | apply H].
  - exists BAND_1B, 500%Z, 1000%Z. repeat split; [apply Qlt_le_weak, H | apply H].
Qed.

Lemma boundaries_contain_revenue_witness :
  exists b lo hi,
    get_revenue_band_by_revenue 10 = Ok b /\
    get_revenue_boundaries_by_band (PyRevenueBand b) = Ok (lo, hi) /\
    inject_Z lo <= 10 <= inject_Z hi.
Proof. apply (boundaries_contain_revenue 10). split; discriminate. Defined.

(** The lookup is total on the four bands. *)
Lemma get_revenue_boundaries_by_band_total (b : RevenueBand) :
  get_revenue_boundaries_by_band (PyRevenueBand b) =
  Ok match b with
     | BAND_10M => (0, 10)
     | BAND_100M => (10, 100)
     | BAND_500M => (100, 500)
     | BAND_1B => (500, 1000)
     end%Z.
Proof. destruct b; reflexivity. Qed.

(** C8. On the four bands the lookup returns the boundary pairs.  On any
    other object it never raises the invalid-band [ValueError]: an object
    without a [value] attribute stops at the debug line with
    [AttributeError], and any other one stops at the error line, whose
    message reads the unbound name [revenue], with [NameError]. *)
Theorem get_revenue_boundaries_by_band_other_input (o : pyobj) :
  (forall b, get_revenue_boundaries_by_band (PyRevenueBand b) =
             Ok match b with
                | BAND_10M => (0, 10)
                | BAND_100M => (10, 100)
                | BAND_500M => (100, 500)
                | BAND_1B => (500, 1000)
                end%Z) /\
  match get_revenue_boundaries_by_band o with
  | Ok _ => exists b, o = PyRevenueBand b
  | Raise e =>
    (forall b, o <> PyRevenueBand b) /\
    is_InvalidBand e = false /\
    (e = NameError "revenue" \/ e = AttributeError "value")
  end /\
  get_revenue_boundaries_by_band (PyIndustry HEALTHCARE) = Raise (NameError "revenue") /\
  get_revenue_boundaries_by_band (PyStr "10M") = Raise (AttributeError "value").
Proof.
  split; [intros b; destruct b; reflexivity|].
  split; [|split; reflexivity].
  destruct o as [| s | q | b | i]; cbn.
  - repeat split; [discriminate | now right].
  - repeat split; [discriminate | now right].
  - repeat split; [discriminate | now right].
  - destruct b; cbn; eauto.
  - repeat split; [discriminate | now left].
Qed.

(** ** Parsing of labels *)

Lemma revenue_band_dict_lookup (s : string) :
  revenue_band_dict !! s =
  if decide (s = "1B"%string) then Some BAND_1B
  else if decide (s = "500M"%string) then Some BAND_500M
  else if decide (s = "100M"%string) then Some BAND_100M
  else if decide (s = "10M"%string) then Some BAND_10M
  else None.
Proof.
  unfold revenue_band_dict. cbn [foldl RevenueBand_members RevenueBand_value].
  repeat (case_decide; [subst; rewrite ?lookup_insert_eq; try reflexivity;
                        repeat (rewrite lookup_insert_ne by discriminate);
                        try apply lookup_insert_eq
                       | rewrite lookup_insert_ne by congruence]).
  apply lookup_empty.
Qed.

Lemma Industry_member_map_lookup (s : string) :
  Industry_member_map !! s =
  if decide (s = "CONSTRUCTION"%string) then Some CONSTRUCTION
  else if decide (s = "MANUFACTURING"%string) then Some MANUFACTURING
  else if decide (s = "RETAIL"%string) then Some RETAIL
  else if decide (s = "FINANCE"%string) then Some FINANCE
  else if decide (s = "HEALTHCARE"%string) then Some HEALTHCARE
  else None.
Proof.
  unfold Industry_member_map. cbn [foldl Industry_members Industry_name].
  repeat (case_decide; [subst; rewrite ?lookup_insert_eq; try reflexivity;
                        repeat (rewrite lookup_insert_ne by discriminate);
                        try apply lookup_insert_eq
                       | rewrite lookup_insert_ne by congruence]).
  apply lookup_empty.
Qed.

(** C10. [parse_revenue_band] returns the band of each of the four labels
    and [None] on every other string, without raising;
    [Industry.from_string] returns the member named by the upper-cased
    string and raises [ValueError] on every other string. *)
Theorem parse_revenue_band_spec (upper : string -> string) (s : string) :
  (forall b, parse_revenue_band s = Some b <-> s = RevenueBand_value b) /\
  (parse_revenue_band s = None <-> forall b, s <> RevenueBand_value b) /\
  (forall i, Industry_from_string upper s = Ok i <-> upper s = Industry_name i) /\
  (Industry_from_string upper s = Raise (ValueError (Invalid_industry_string s))
     <-> forall i, upper s <> Industry_name i) /\
  parse_revenue_band "10M" = Some BAND_10M /\
  parse_revenue_band "100M" = Some BAND_100M /\
  parse_revenue_band "500M" = Some BAND_500M /\
  parse_revenue_band "1B" = Some BAND_1B /\
  parse_revenue_band "10m" = None /\
  Industry_from_string str_upper "Finance" = Ok FINANCE /\
  Industry_from_string str_upper "10M"
    = Raise (ValueError (Invalid_industry_string "10M")).
Proof.
  split; [|split; [|split; [|split]]].
  - intros b. unfold parse_revenue_band. rewrite revenue_band_dict_lookup.
    repeat case_decide; subst; destruct b; cbn; split; intros; congruence.
  - unfold parse_revenue_band. rewrite revenue_band_dict_lookup.
    repeat case_decide; subst; split; intros H'; try discriminate; try reflexivity.
    + exfalso. apply (H' BAND_1B). reflexivity.
    + exfalso. apply (H' BAND_500M). reflexivity.
    + exfalso. apply (H' BAND_100M). reflexivity.
    + exfalso. apply (H' BAND_10M). reflexivity.
    + intros b. destruct b; cbn; congruence.
  - intros i. unfold Industry_from_string. rewrite Industry_member_map_lookup.
    repeat case_decide; destruct i; cbn; split; intros; congruence.
  - unfold Industry_from_string. rewrite Industry_member_map_lookup.
    repeat case_decide; split; intros H'; try discriminate; try reflexivity.
    + exfalso. apply (H' CONSTRUCTION). assumption.
    + exfalso. apply (H' MANUFACTURING). assumption.
    + exfalso. apply (H' RETAIL). assumption.
    + exfalso. apply (H' FINANCE). assumption.
    + exfalso. apply (H' HEALTHCARE). assumption.
    + intros i. destruct i; cbn; congruence.
  - repeat split; vm_compute; reflexivity.
Qed.

(** ** Parameter resolver *)

(** Resolution of [(FINANCE, -1)] against an empty table: the industry
    test comes first and decides. *)
Lemma resolve_out_of_range_unknown_industry :
  ~ (forall (stats : StatsTable) (i : Industry) (r : Q),
       r < 0 \/ 1000 < r ->
       exists e, _get_industry_revenue_params stats i r = Raise e /\
                 is_InvalidRevenue e = true).
Proof.
  intros H. destruct (H ∅ FINANCE (-1)) as [e [He Hinv]].
  - left. reflexivity.
  - vm_compute in He. injection He as <-. discriminate.
Qed.

(** C3 (amended). The resolver tests the industry key before it classifies
    the revenue: an absent key gives the unknown-industry error whatever the
    revenue; a present key and an out-of-range revenue give the
    invalid-revenue error; the unknown-industry error is raised exactly
    when the key is absent, and the invalid-revenue error exactly when the
    key is present and the revenue out of range. *)
Theorem resolve_error_order (stats : StatsTable) (i : Industry) (r : Q) :
  (stats !! stats_key i = None ->
   _get_industry_revenue_params stats i r = Raise (ValueError (Unknown_industry i))) /\
  (is_Some (stats !! stats_key i) -> r < 0 \/ 1000 < r ->
   _get_industry_revenue_params stats i r = Raise (ValueError (Invalid_revenue r))) /\
  (forall e, _get_industry_revenue_params stats i r = Raise e ->
     (is_UnknownIndustry e = true <-> stats !! stats_key i = None) /\
     (is_InvalidRevenue e = true <->
        is_Some (stats !! stats_key i) /\ (r < 0 \/ 1000 < r))).
Proof.
  unfold _get_industry_revenue_params, stats_key.
  destruct (stats !! str_lower (Industry_name i)) as [by_band|] eqn:Hs.
  - split; [discriminate|]. split.
    + intros _ Hr. classify r; try reflexivity; lra.
    + intros e. classify r; cbn.
      * intros [= <-]. cbn. split; [split; [discriminate|discriminate]|].
        split; [intros _; split; [eauto | now left] | reflexivity].
      * unfold getitem; destruct (by_band !! _) as [entry|];
          [destruct (entry !! "frequency"); [destruct (entry !! "cost")|]|];
          intros He; try discriminate; injection He as <-; cbn;
          (split; [split; discriminate | split; [discriminate | intros [_ ?]; lra]]).
      * unfold getitem; destruct (by_band !! _) as [entry|];
          [destruct (entry !! "frequency"); [destruct (entry !! "cost")|]|];
          intros He; try discriminate; injection He as <-; cbn;
          (split; [split; discriminate | split; [discriminate | intros [_ ?]; lra]]).
      * unfold getitem; destruct (by_band !! _) as [entry|];
          [destruct (entry !! "frequency"); [destruct (entry !! "cost")|]|];
          intros He; try discriminate; injection He as <-; cbn;
          (split; [split; discriminate | split; [discriminate | intros [_ ?]; lra]]).
      * unfold getitem; destruct (by_band !! _) as [entry|];
          [destruct (entry !! "frequency"); [destruct (entry !! "cost")|]|];
          intros He; try discriminate; injection He as <-; cbn;
          (split; [split; discriminate | split; [discriminate | intros [_ ?]; lra]]).
      * intros [= <-]. cbn. split; [split; [discriminate|discriminate]|].
        split; [intros _; split; [eauto | now right] | reflexivity].
  - split; [reflexivity|]. split.
    + intros [x Hx]. discriminate.
    + intros e [= <-]. cbn. split; [split; reflexivity|].
      split; [discriminate | intros [[x Hx] _]; discriminate].
Qed.

Lemma resolve_error_order_witness :
  _get_industry_revenue_params ∅ FINANCE (-1) = Raise (ValueError (Unknown_industry FINANCE)) /\
  _get_industry_revenue_params test_stats FINANCE (-1)
    = Raise (ValueError (Invalid_revenue (-1))).
Proof.
  split.
  - apply (proj1 (resolve_error_order ∅ FINANCE (-1))). reflexivity.
  - apply (proj1 (proj2 (resolve_error_order test_stats FINANCE (-1)))).
    + vm_compute. eauto.
    + left. reflexivity.
Defined.

(** ** Construction *)

(** Construction with a run count of 0 returns an engine. *)
Lemma init_accepts_zero_runs :
  ~ (forall (stats : StatsTable) (i : Industry) (r : Q) (N : Z),
       (N < 1)%Z -> exists e, CyberRiskSimulator_init stats i r N = Raise e).
Proof.
  intros H. destruct (H test_stats FINANCE 5 0%Z) as [e He]; [reflexivity|].
  vm_compute in He. discriminate.
Qed.

(** C4 (amended). Construction does not inspect the run count: for every
    [N] it fails exactly when parameter resolution fails, with the same
    exception, and otherwise returns an engine that holds [N] unchanged,
    the resolved parameters and an empty result table. *)
Theorem init_ignores_run_count (stats : StatsTable) (i : Industry) (r : Q) (N : Z) :
  (forall e, CyberRiskSimulator_init stats i r N = Raise e <->
             _get_industry_revenue_params stats i r = Raise e) /\
  (forall sim, CyberRiskSimulator_init stats i r N = Ok sim <->
     _get_industry_revenue_params stats i r = Ok (freq_param sim, sev_param sim) /\
     industry sim = i /\ revenue sim = r /\ num_simulations sim = N /\
     results sim = []) /\
  CyberRiskSimulator_init test_stats FINANCE 5 0
    = Ok {| industry := FINANCE; revenue := 5; num_simulations := 0;
            freq_param := 5; sev_param := 1000; results := [] |}.
Proof.
  unfold CyberRiskSimulator_init.
  split; [|split; [|vm_compute; reflexivity]].
  - intros e. destruct (_get_industry_revenue_params stats i r) as [[f s]|e'].
    + split; discriminate.
    + split; intros [= <-]; reflexivity.
  - intros sim. destruct (_get_industry_revenue_params stats i r) as [[f s]|e'].
    + split.
      * intros [= <-]. cbn. repeat split.
      * destruct sim as [i' r' N' f' s' res']. cbn.
        intros [[= -> ->] [-> [-> [-> ->]]]]. reflexivity.
    + split; [discriminate | intros [? _]; discriminate].
Qed.

(** ** The sampling loops *)

Section EngineProperties.
Context {RS : RandomSource} {FS : FileSystem}.

Lemma set_random_state_same (p : process) :
  set_random_state (random_state p) p = p.
Proof. destruct p; reflexivity. Qed.

Lemma set_random_state_twice (s1 s2 : rng_state) (p : process) :
  set_random_state s2 (set_random_state s1 p) = set_random_state s2 p.
Proof. reflexivity. Qed.

Lemma draw_costs_length loc scale n s costs s' :
  draw_costs loc scale n s = (Ok costs, s') -> length costs = n.
Proof.
  revert s costs s'. induction n as [|n IH]; intros s costs s'; cbn.
  - intros [= <- _]. reflexivity.
  - destruct (norm_rvs loc scale s) as [[c|e] s1]; [|discriminate].
    destruct (draw_costs loc scale n s1) as [[cs|e] s2] eqn:E; [|discriminate].
    intros [= <- _]. cbn. f_equal. eapply IH, E.
Qed.

Lemma draw_costs_add loc scale n m s :
  draw_costs loc scale (n + m) s =
  match draw_costs loc scale n s with
  | (Raise e, s1) => (Raise e, s1)
  | (Ok cs, s1) =>
    match draw_costs loc scale m s1 with
    | (Raise e, s2) => (Raise e, s2)
    | (Ok cs', s2) => (Ok (cs ++ cs'), s2)
    end
  end.
Proof.
  revert s. induction n as [|n IH]; intros s; cbn.
  - destruct (draw_costs loc scale m s) as [[cs'|e] s2]; reflexivity.
  - destruct (norm_rvs loc scale s) as [[c|e] s1]; [|reflexivity].
    rewrite IH.
    destruct (draw_costs loc scale n s1) as [[cs|e] s2]; [|reflexivity].
    destruct (draw_costs loc scale m s2) as [[cs'|e] s3]; reflexivity.
Qed.

(** The inner loop asks for one variate per attack, always with location
    [sev_param] and scale [sev_param * 0.1], and adds each to [losses[i]]
    as drawn. *)
Lemma attacks_loop_spec n i aid losses data p x :
  losses !! i = Some x ->
  attacks_loop i aid n losses data p =
  match draw_costs (sev_param (self p)) (sev_param (self p) * (1 # 10)) n
                   (random_state p) with
  | (Raise e, s') => (Raise e, set_random_state s' p)
  | (Ok costs, s') =>
    (Ok (<[i := fold_left Qplus costs x]> losses, data ++ rows_of_run i aid costs),
     set_random_state s' p)
  end.
Proof.
  revert aid losses data p x.
  induction n as [|n IH]; intros aid losses data p x Hx; cbn.
  - rewrite list_insert_id by exact Hx.
    rewrite app_nil_r, set_random_state_same. reflexivity.
  - unfold bind at 1. unfold draw_norm at 1.
    destruct (norm_rvs (sev_param (self p)) (sev_param (self p) * (1 # 10))
                (random_state p)) as [[c|e] s1]; [|reflexivity].
    unfold bind at 1. unfold add_at. rewrite Hx. unfold ret at 1.
    rewrite (IH (S aid) _ _ _ (x + c)).
    + cbn [self set_random_state random_state].
      destruct (draw_costs _ _ n s1) as [[cs|e] s2]; [|reflexivity].
      rewrite list_insert_insert_eq. cbn [fold_left rows_of_run].
      rewrite <- app_assoc. reflexivity.
    + apply list_lookup_insert_eq. eapply lookup_lt_Some, Hx.
Qed.

(** The outer loop: run [i] consumes the next [attack_counts[i]] draws and
    leaves their sum in [losses[i]]. *)
Lemma runs_loop_spec counts i done data p :
  length done = i ->
  runs_loop i counts (done ++ replicate (length counts) 0) data p =
  match draw_costs (sev_param (self p)) (sev_param (self p) * (1 # 10))
                   (sum_list counts) (random_state p) with
  | (Raise e, s') => (Raise e, set_random_state s' p)
  | (Ok costs, s') =>
    (Ok (done ++ map np.sum (split_runs counts costs),
         data ++ rows_of_runs i (split_runs counts costs)),
     set_random_state s' p)
  end.
Proof.
  revert i done data p.
  induction counts as [|c rest IH]; intros i done data p Hi.
  - cbn. rewrite !app_nil_r, set_random_state_same. reflexivity.
  - change (sum_list (c :: rest)) with (c + sum_list rest)%nat.
    cbn [runs_loop length replicate].
    unfold bind at 1.
    rewrite (attacks_loop_spec c i 0 _ data p 0)
      by (subst i; apply list_lookup_middle; reflexivity).
    rewrite draw_costs_add.
    destruct (draw_costs _ _ c (random_state p)) as [[cs|e] s1] eqn:E1;
      [|reflexivity].
    cbn [fst snd].
    rewrite insert_app_r_alt by lia.
    replace (i - length done)%nat with 0%nat by lia.
    cbn [insert list_insert].
    change (done ++ fold_left Qplus cs 0 :: replicate (length rest) 0)
      with (done ++ [np.sum cs] ++ replicate (length rest) 0).
    rewrite app_assoc.
    rewrite (IH (S i) (done ++ [np.sum cs]))
      by (rewrite length_app; cbn; lia).
    cbn [self set_random_state random_state].
    destruct (draw_costs _ _ (sum_list rest) s1) as [[cs'|e] s2];
      [|reflexivity].
    cbn [split_runs].
    rewrite (take_app_length' cs cs' c), (drop_app_length' cs cs' c)
      by (symmetry; eapply draw_costs_length, E1).
    cbn [map rows_of_runs]. rewrite <- !app_assoc. reflexivity.
Qed.

Lemma _simulate_losses_spec counts p :
  _simulate_losses counts p =
  match draw_costs (sev_param (self p)) (sev_param (self p) * (1 # 10))
                   (sum_list counts) (random_state p) with
  | (Raise e, s') => (Raise e, set_random_state s' p)
  | (Ok costs, s') =>
    (Ok (map np.sum (split_runs counts costs)),
     after_losses s' (rows_of_runs 0 (split_runs counts costs)) p)
  end.
Proof.
  unfold _simulate_losses, bind.
  pose proof (runs_loop_spec counts 0 [] [] p eq_refl) as Hloop.
  cbn [app] in Hloop. rewrite Hloop.
  destruct (draw_costs _ _ (sum_list counts) (random_state p)) as [[cs|e] s'];
    reflexivity.
Qed.

(** A call of [run_simulation], step by step: the Poisson draw, the
    Normal draws, the rows appended, the write when asked for, and the
    metrics of the per-run losses. *)
Lemma run_simulation_spec save p :
  run_simulation save p =
  match poisson_rvs (freq_param (self p)) (num_simulations (self p))
                    (random_state p) with
  | (Raise e, s0) => (Raise e, set_random_state s0 p)
  | (Ok counts, s0) =>
    match draw_costs (sev_param (self p)) (sev_param (self p) * (1 # 10))
                     (sum_list counts) s0 with
    | (Raise e, s1) => (Raise e, set_random_state s1 p)
    | (Ok costs, s1) =>
      let runs := split_runs counts costs in
      let p1 := after_losses s1 (rows_of_runs 0 runs) p in
      if save then
        match to_csv_error (csv_files p1) (results (self p1)) with
        | Some e => (Raise e, p1)
        | None => (compute_metrics (map np.sum runs), after_save true p1)
        end
      else (compute_metrics (map np.sum runs), p1)
    end
  end.
Proof.
  unfold run_simulation. unfold bind at 1.
  unfold _simulate_attacks, draw_poisson.
  destruct (poisson_rvs _ _ (random_state p)) as [[counts|e] s0]; [|reflexivity].
  unfold bind at 1. rewrite _simulate_losses_spec.
  cbn [self set_random_state random_state].
  destruct (draw_costs _ _ (sum_list counts) s0) as [[costs|e] s1]; [|reflexivity].
  unfold bind. destruct save; [|reflexivity].
  unfold _save_results_to_csv. cbv zeta.
  destruct (to_csv_error _ _); reflexivity.
Qed.

Lemma split_runs_concat counts costs :
  length costs = sum_list counts ->
  concat (split_runs counts costs) = costs /\
  map length (split_runs counts costs) = counts.
Proof.
  revert costs. induction counts as [|c rest IH]; intros costs Hlen.
  - destruct costs; [split; reflexivity | discriminate].
  - change (sum_list (c :: rest)) with (c + sum_list rest)%nat in Hlen.
    cbn [split_runs concat map].
    destruct (IH (drop c costs)) as [IH1 IH2].
    { rewrite length_drop. lia. }
    rewrite IH1, IH2, take_drop, length_take. split; [reflexivity|].
    f_equal. lia.
Qed.

Lemma rows_of_run_length i aid costs :
  length (rows_of_run i aid costs) = length costs.
Proof.
  revert aid. induction costs as [|c costs IH]; intros aid; cbn; [reflexivity|].
  now rewrite IH.
Qed.

Lemma rows_of_runs_length i runs :
  length (rows_of_runs i runs) = length (concat runs).
Proof.
  revert i. induction runs as [|r runs IH]; intros i; cbn; [reflexivity|].
  now rewrite !length_app, rows_of_run_length, IH.
Qed.

Lemma rows_of_run_cost i aid costs :
  map cost (rows_of_run i aid costs) = costs.
Proof.
  revert aid. induction costs as [|c costs IH]; intros aid; cbn; [reflexivity|].
  now rewrite IH.
Qed.

Lemma rows_of_runs_cost i runs :
  map cost (rows_of_runs i runs) = concat runs.
Proof.
  revert i. induction runs as [|r runs IH]; intros i; cbn; [reflexivity|].
  now rewrite map_app, rows_of_run_cost, IH.
Qed.
End EngineProperties.

(** ** Sampling *)

(** C5. A call of [_simulate_losses] asks the random source for exactly
    [sum attack_counts] Normal variates, one per attack and run after run,
    each with location [sev_param] and scale [sev_param * 0.1]; the loss of
    a run is the sum of the variates drawn for it, as they were drawn, and
    the log holds these same costs.  A negative draw stays negative: with
    draws [-3, 2, 1] and attack counts [1, 2] the losses are [-3, 3]. *)
Theorem simulate_losses_one_draw_per_attack
    (RS : RandomSource) (attack_counts : list nat) (p : process) :
  match draw_costs (sev_param (self p)) (sev_param (self p) * (1 # 10))
                   (sum_list attack_counts) (random_state p) with
  | (Ok costs, s') =>
    exists runs,
      concat runs = costs /\ map length runs = attack_counts /\
      map cost (rows_of_runs 0 runs) = costs /\
      _simulate_losses attack_counts p =
        (Ok (map np.sum runs), after_losses s' (rows_of_runs 0 runs) p)
  | (Raise e, s') =>
    _simulate_losses attack_counts p = (Raise e, set_random_state s' p)
  end /\
  fst (@_simulate_losses tape_source [1; 2]%nat
         (@start tape_source (test_simulator 2)
            {| poisson_tape := []; norm_tape := [-3; 2; 1] |}))
    = Ok [-3; 3].
Proof.
  split; [|vm_compute; reflexivity].
  rewrite _simulate_losses_spec.
  destruct (draw_costs _ _ (sum_list attack_counts) (random_state p))
    as [[costs|e] s'] eqn:E; [|reflexivity].
  exists (split_runs attack_counts costs).
  destruct (split_runs_concat attack_counts costs) as [Hc Hl].
  { eapply draw_costs_length, E. }
  rewrite rows_of_runs_cost. repeat split; assumption.
Qed.

(** ** The per-event log *)

(** One run of the engine of [test_run_simulation], [save_to_csv] left at
    [False], leaves 7 rows in [self.results]; a second run leaves 14. *)
Lemma run_simulation_retains_rows :
  let RS := mock_source [1; 0; 2; 3; 1]%nat (52 # 10) in
  let FS := writable_file_system in
  let p0 := @start RS (test_simulator 5) tt in
  let p1 := snd (@run_simulation RS FS false p0) in
  let p2 := snd (@run_simulation RS FS false p1) in
  results (self p0) = [] /\
  length (results (self p1)) = 7%nat /\
  length (results (self p2)) = 14%nat.
Proof. lazy. repeat split. Qed.

(** C7 (amended). Whatever [save_to_csv], a call of [run_simulation] whose
    draws succeed appends to [self.results] one row per attack of the
    call, carrying the costs drawn in the order of the draws, and keeps the
    rows of earlier calls; this holds also when the call then fails, in
    [to_csv] or in the metrics.  [save_to_csv] only decides whether the
    accumulated table is also written to a file, which happens exactly when
    the write is asked for and does not fail.  Only a call that fails in
    one of its draws leaves [self.results] as it was.  On a read-only file
    system the run of the test, asked to save, raises and still leaves its
    7 rows. *)
Theorem run_simulation_appends_rows :
  (forall (RS : RandomSource) (FS : FileSystem) (save_to_csv : bool) (p : process),
     let r := run_simulation save_to_csv p in
     match poisson_rvs (freq_param (self p)) (num_simulations (self p))
                       (random_state p) with
     | (Raise e, _) =>
       fst r = Raise e /\
       results (self (snd r)) = results (self p) /\
       csv_files (snd r) = csv_files p
     | (Ok attack_counts, s0) =>
       match draw_costs (sev_param (self p)) (sev_param (self p) * (1 # 10))
                        (sum_list attack_counts) s0 with
       | (Raise e, _) =>
         fst r = Raise e /\
         results (self (snd r)) = results (self p) /\
         csv_files (snd r) = csv_files p
       | (Ok costs, _) =>
         let new_rows := rows_of_runs 0 (split_runs attack_counts costs) in
         results (self (snd r)) = results (self p) ++ new_rows /\
         length new_rows = sum_list attack_counts /\
         map cost new_rows = costs /\
         if save_to_csv then
           match to_csv_error (csv_files p) (results (self p) ++ new_rows) with
           | Some e => fst r = Raise e /\ csv_files (snd r) = csv_files p
           | None => csv_files (snd r) = csv_files p ++ [results (self p) ++ new_rows]
           end
         else csv_files (snd r) = csv_files p
       end
     end) /\
  (let RS := mock_source [1; 0; 2; 3; 1]%nat (52 # 10) in
   let r := @run_simulation RS read_only_file_system true
              (@start RS (test_simulator 5) tt) in
   fst r = Raise (OSError "Read-only file system") /\
   length (results (self (snd r))) = 7%nat /\
   csv_files (snd r) = []).
Proof.
  split; [|lazy; repeat split].
  intros RS FS save_to_csv p. cbv zeta. rewrite run_simulation_spec.
  destruct (poisson_rvs _ _ (random_state p)) as [[counts|e] s0];
    [|repeat split].
  destruct (draw_costs _ _ (sum_list counts) s0) as [[costs|e] s1] eqn:E;
    [|repeat split].
  pose proof (draw_costs_length _ _ _ _ _ _ E) as Hlen.
  destruct (split_runs_concat counts costs Hlen) as [Hc Hl].
  cbv zeta.
  assert (Hrows : length (rows_of_runs 0 (split_runs counts costs)) = sum_list counts).
  { rewrite rows_of_runs_length, Hc. exact Hlen. }
  assert (Hcost : map cost (rows_of_runs 0 (split_runs counts costs)) = costs).
  { rewrite rows_of_runs_cost. exact Hc. }
  destruct save_to_csv.
  - cbn [after_losses set_results set_random_state self results csv_files].
    destruct (to_csv_error _ _) as [e|]; cbn; repeat split; assumption.
  - cbn. repeat split; assumption.
Qed.

(** ** The engine in binary64 *)

(** The bound on the number of cuts is never what decides a pairwise sum:
    any bound that is at least the length gives the same sum. *)
Lemma pairwise_sum_depth (d d' : nat) (a : list float) :
  (length a <= d)%nat -> (length a <= d')%nat ->
  np64.pairwise_sum d a = np64.pairwise_sum d' a.
Proof.
  revert d' a. induction d as [|d IH]; intros d' a Hd Hd'.
  - destruct a; [|cbn in Hd; lia]. destruct d'; reflexivity.
  - destruct d' as [|d'].
    { destruct a; [reflexivity | cbn in Hd'; lia]. }
    cbn [np64.pairwise_sum].
    destruct (length a <? 8)%nat; [reflexivity|].
    destruct (length a <=? 128)%nat eqn:E; [reflexivity|].
    apply Nat.leb_gt in E.
    pose proof (Nat.Div0.mod_le (length a / 2) 8).
    pose proof (Nat.mod_upper_bound (length a / 2) 8 ltac:(lia)).
    pose proof (Nat.div_lt (length a) 2 ltac:(lia) ltac:(lia)).
    assert (64 <= length a / 2)%nat by (apply Nat.div_le_lower_bound; lia).
    f_equal; apply IH; rewrite ?length_take, ?length_drop; lia.
Qed.

Section Binary64Engine.
Context {RS : float64.RandomSource} {FS : float64.FileSystem}.
Import float64.









End Binary64Engine.

(** ** Order of binary64 numbers *)












(** ** The metrics *)

Section Binary64Metrics.
Import float64.




End Binary64Metrics.

(** * Further properties *)

(** ** Parameter resolver: the successful path and the missing band *)

Lemma classify_error (r : Q) (e : exn) :
  get_revenue_band_by_revenue r = Raise e -> e = ValueError (Invalid_revenue r).
Proof. classify r; intros He; try discriminate; injection He as <-; reflexivity. Qed.

(** X1. The resolver succeeds exactly when the industry key, the band label
    of the revenue and the two fields [frequency] and [cost] are all present
    in the table, and then returns the stored pair unchanged.  It raises the
    invalid-band-for-industry [ValueError] exactly when the industry is
    listed, the revenue is in range and the band label is missing under
    that industry; a missing field is a [KeyError]. *)
Theorem resolve_success (stats : StatsTable) (i : Industry) (r : Q) :
  (forall f c,
     _get_industry_revenue_params stats i r = Ok (f, c) <->
     exists by_band b entry,
       stats !! stats_key i = Some by_band /\
       get_revenue_band_by_revenue r = Ok b /\
       by_band !! RevenueBand_value b = Some entry /\
       entry !! "frequency"%string = Some f /\
       entry !! "cost"%string = Some c) /\
  (forall b,
     _get_industry_revenue_params stats i r
       = Raise (ValueError (Invalid_revenue_band_for_industry b i)) <->
     exists by_band,
       stats !! stats_key i = Some by_band /\
       get_revenue_band_by_revenue r = Ok b /\
       by_band !! RevenueBand_value b = None) /\
  (forall key,
     _get_industry_revenue_params stats i r = Raise (KeyError key) <->
     exists by_band b entry,
       stats !! stats_key i = Some by_band /\
       get_revenue_band_by_revenue r = Ok b /\
       by_band !! RevenueBand_value b = Some entry /\
       ((key = "frequency"%string /\ entry !! "frequency"%string = None) \/
        (key = "cost"%string /\ is_Some (entry !! "frequency"%string) /\
         entry !! "cost"%string = None))).
Proof.
  unfold _get_industry_revenue_params, stats_key, getitem.
  destruct (stats !! str_lower (Industry_name i)) as [by_band|] eqn:Hs;
    [|naive_solver].
  destruct (get_revenue_band_by_revenue r) as [b|e] eqn:Hb.
  2:{ pose proof (classify_error _ _ Hb) as ->. naive_solver. }
  destruct (by_band !! RevenueBand_value b) as [entry|] eqn:He; [|naive_solver].
  destruct (entry !! "frequency"%string) as [f0|] eqn:Hf.
  2:{ split; [naive_solver|]. split; [naive_solver|].
      intros key. split.
      - intros [= <-]. exists by_band, b, entry. naive_solver.
      - intros (bb & b' & en & H1 & H2 & H3 & [[-> _]|[_ [[x Hx] _]]]);
          [reflexivity | congruence]. }
  destruct (entry !! "cost"%string) as [c0|] eqn:Hc.
  - split; [naive_solver|]. split; [naive_solver|].
    intros key. split; [discriminate|].
    intros (bb & b' & en & H1 & H2 & H3 & [[_ H]|[_ [_ H]]]); congruence.
  - split; [naive_solver|]. split; [naive_solver|].
    intros key. split.
    + intros [= <-]. exists by_band, b, entry.
      repeat split; try assumption. right. repeat split; eauto.
    + intros (bb & b' & en & H1 & H2 & H3 & [[_ H]|[-> _]]);
        [congruence | reflexivity].
Qed.

(** ** Industry names *)

(** X2. The lower-cased member name, which is the key of the statistics
    table and the string stored for a synthetic company, parses back to the
    member it came from, as does the member name itself; hence no two
    industries share a key. *)
Theorem industry_key_roundtrip :
  (forall i, Industry_from_string str_upper (stats_key i) = Ok i) /\
  (forall i, Industry_from_string str_upper (Industry_name i) = Ok i) /\
  (forall i j, stats_key i = stats_key j -> i = j).
Proof.
  assert (H : forall i, Industry_from_string str_upper (stats_key i) = Ok i).
  { intros i. destruct i; vm_compute; reflexivity. }
  split; [exact H|]. split.
  - intros i. destruct i; vm_compute; reflexivity.
  - intros i j Hij. pose proof (H i) as Hi. rewrite Hij, H in Hi.
    injection Hi as ->. reflexivity.
Qed.

(** ** Bands and their boundaries *)

(** X3. The boundaries of a band describe the revenues classified into it:
    a revenue falls into band [b] exactly when it lies above the lower and
    at most at the upper boundary of [b], the only other case being revenue
    0, which falls into the first band although its lower boundary is 0. *)
Theorem band_preimage (b : RevenueBand) (lo hi : Z) (r : Q) :
  get_revenue_boundaries_by_band (PyRevenueBand b) = Ok (lo, hi) ->
  (get_revenue_band_by_revenue r = Ok b <->
   (inject_Z lo < r /\ r <= inject_Z hi) \/ (b = BAND_10M /\ r == 0)).
Proof.
  intros Hb. destruct b; cbn in Hb; injection Hb as <- <-;
    unfold inject_Z; classify r;
    (split;
     [ intros He; try discriminate;
       destruct (Qlt_le_dec 0 r);
       first [ left; split; lra | right; split; [reflexivity | lra] ]
     | intros [[H1 H2]|[H1 H2]]; try discriminate H1;
       try reflexivity; exfalso; lra ]).
Qed.

Lemma band_preimage_witness :
  get_revenue_band_by_revenue 50 = Ok BAND_100M <->
  (inject_Z 10 < 50 /\ 50 <= inject_Z 100) \/ (BAND_100M = BAND_10M /\ 50 == 0).
Proof. apply (band_preimage BAND_100M 10 100 50). reflexivity. Defined.

(** X4. Classification is monotone: of two valid revenues the larger one
    never falls into a band with smaller boundaries. *)
Theorem classification_monotone (r1 r2 : Q) (b1 b2 : RevenueBand)
    (lo1 hi1 lo2 hi2 : Z) :
  r1 <= r2 ->
  get_revenue_band_by_revenue r1 = Ok b1 ->
  get_revenue_band_by_revenue r2 = Ok b2 ->
  get_revenue_boundaries_by_band (PyRevenueBand b1) = Ok (lo1, hi1) ->
  get_revenue_boundaries_by_band (PyRevenueBand b2) = Ok (lo2, hi2) ->
  (lo1 <= lo2)%Z /\ (hi1 <= hi2)%Z.
Proof.
  intros Hle H1 H2 Hb1 Hb2.
  destruct (get_revenue_band_by_revenue_cases r1)
    as [[? E1]|[[? E1]|[[? E1]|[[? E1]|[[? E1]|[? E1]]]]]];
    rewrite E1 in H1; try discriminate; injection H1 as <-;
    destruct (get_revenue_band_by_revenue_cases r2)
      as [[? E2]|[[? E2]|[[? E2]|[[? E2]|[[? E2]|[? E2]]]]]];
    rewrite E2 in H2; try discriminate; injection H2 as <-;
    cbn in Hb1, Hb2; injection Hb1 as <- <-; injection Hb2 as <- <-;
    try (split; lia); exfalso; lra.
Qed.

Lemma classification_monotone_witness :
  (10 <= 100)%Z /\ (100 <= 500)%Z.
Proof.
  apply (classification_monotone 50 200 BAND_100M BAND_500M 10 100 100 500);
    [discriminate | reflexivity | reflexivity | reflexivity | reflexivity].
Defined.

(** ** A sample of one loss *)


(** ** The result table over several calls *)

Lemma run_simulation_step (RS : RandomSource) (FS : FileSystem)
    (save_to_csv : bool) (p : process) :
  let p' := snd (run_simulation save_to_csv p) in
  results (self p) `prefix_of` results (self p') /\
  (csv_files p' = csv_files p \/
   csv_files p' = csv_files p ++ [results (self p')]).
Proof.
  rewrite run_simulation_spec.
  destruct (poisson_rvs _ _ (random_state p)) as [[counts|e] s0];
    [|split; [reflexivity | now left]].
  destruct (draw_costs _ _ (sum_list counts) s0) as [[costs|e] s1];
    [|split; [reflexivity | now left]].
  cbv zeta.
  destruct save_to_csv; [destruct (to_csv_error _ _)|]; cbn;
    (split; [apply prefix_app_r; reflexivity|]);
    [now left | now right | now left].
Qed.

(** X8. Over any sequence of calls on one engine, with any flags and
    whether the calls succeed or fail, [self.results] only grows, and the
    tables written to CSV form a chain: each written table starts with the
    rows the engine held before the sequence, is a prefix of every table
    written after it, and is a prefix of the final [self.results]. *)
Theorem csv_exports_cumulative
    (RS : RandomSource) (FS : FileSystem) (flags : list bool) (p : process) :
  let p' := run_simulation_calls flags p in
  results (self p) `prefix_of` results (self p') /\
  exists files,
    csv_files p' = csv_files p ++ files /\
    StronglySorted prefix files /\
    Forall (fun f => results (self p) `prefix_of` f /\
                     f `prefix_of` results (self p')) files.
Proof.
  revert p. induction flags as [|b flags IH]; intros p; cbn [run_simulation_calls].
  - split; [reflexivity|]. exists []. rewrite app_nil_r.
    split; [reflexivity|]. split; constructor.
  - destruct (run_simulation_step RS FS b p) as [Hpre Hcsv]. cbv zeta in Hpre, Hcsv.
    destruct (IH (snd (run_simulation b p))) as [Hpre' (files & Hf & Hs & Hall)].
    cbv zeta. split; [etrans; eassumption|].
    destruct Hcsv as [Hcsv|Hcsv]; rewrite Hcsv in Hf.
    + exists files. split; [exact Hf|]. split; [exact Hs|].
      eapply Forall_impl; [exact Hall|]. cbn. intros f [H1 H2].
      split; [etrans; eassumption | exact H2].
    + exists (results (self (snd (run_simulation b p))) :: files).
      split; [rewrite Hf, <- app_assoc; reflexivity|]. split.
      * constructor; [exact Hs|].
        eapply Forall_impl; [exact Hall|]. cbn. intros f [H1 _]. exact H1.
      * constructor; [split; assumption|].
        eapply Forall_impl; [exact Hall|]. cbn. intros f [H1 H2].
        split; [etrans; eassumption | exact H2].
Qed.

(** ** The cached statistics file *)

(** X9. Once [stats_cache] holds a table, every later [load_stats] returns
    that table, however the file is rewritten in between, and the cache
    keeps it. *)
Theorem load_stats_serves_cache
    (events : list stats_event) (st : stats_store) (table : StatsTable) :
  stats_cache st = Some table ->
  Forall (fun r => r = Ok (Some table)) (fst (stats_run events st)) /\
  stats_cache (snd (stats_run events st)) = Some table.
Proof.
  revert st. induction events as [|ev events IH]; intros st Hc.
  - split; [constructor | exact Hc].
  - destruct ev as [content|]; cbn [stats_run].
    + apply IH. exact Hc.
    + unfold load_stats. rewrite Hc.
      destruct (IH st Hc) as [Hall Hfin].
      destruct (stats_run events st) as [rs st'']. cbn [fst snd] in *.
      split; [constructor; [reflexivity | exact Hall] | exact Hfin].
Qed.

Lemma load_stats_serves_cache_witness :
  let st := {| stats_cache := Some test_stats; stats_file := Ok (Some ∅) |} in
  let events := [Load_stats; Rewrite_file (Raise tape_exhausted); Load_stats] in
  Forall (fun r => r = Ok (Some test_stats)) (fst (stats_run events st)) /\
  stats_cache (snd (stats_run events st)) = Some test_stats.
Proof.
  intros st events. apply (load_stats_serves_cache events st test_stats). reflexivity.
Defined.

(** ** Segmentation by revenue band and industry *)

Lemma parse_revenue_band_Some (s : string) (b : RevenueBand) :
  parse_revenue_band s = Some b -> s = RevenueBand_value b.
Proof.
  unfold parse_revenue_band. rewrite revenue_band_dict_lookup.
  repeat case_decide; subst; intros [= <-]; reflexivity.
Qed.

(** X10. The bounds computed for a request: when every label is one of the
    four band labels, they are the boundaries of the labelled bands, in
    the order of the request; as soon as one label is not, the computation
    stops with the [AttributeError] of reading [.value] on [None]. *)
Theorem segmentation_bounds_spec (revenue_bands_str : list string) :
  match web_service.segmentation_bounds revenue_bands_str with
  | Ok bounds =>
    Forall2 (fun s bd => exists b,
               s = RevenueBand_value b /\
               get_revenue_boundaries_by_band (PyRevenueBand b) = Ok bd)
            revenue_bands_str bounds
  | Raise e =>
    e = AttributeError "value" /\
    Exists (fun s => parse_revenue_band s = None) revenue_bands_str
  end.
Proof.
  unfold web_service.segmentation_bounds.
  induction revenue_bands_str as [|s labels IH]; cbn [map web_service.map_raising].
  - constructor.
  - destruct (parse_revenue_band s) as [b|] eqn:Hs; cbn [web_service.band_object].
    + rewrite get_revenue_boundaries_by_band_total.
      destruct (web_service.map_raising _ _) as [bounds|e].
      * constructor; [|exact IH]. exists b. split.
        -- apply parse_revenue_band_Some, Hs.
        -- apply get_revenue_boundaries_by_band_total.
      * destruct IH as [-> IH]. split; [reflexivity|]. now apply Exists_cons_tl.
    + cbn. split; [reflexivity|]. apply Exists_cons_hd. exact Hs.
Qed.

Lemma count_char_app (c : ascii) (a b : string) :
  count_char c (a ++ b) = (count_char c a + count_char c b)%nat.
Proof.
  induction a as [|d a IH]; simpl; [reflexivity|].
  rewrite IH. lia.
Qed.

Lemma count_char_concat_replicate (c : ascii) (sep s : string) (n : nat) :
  count_char c sep = 0%nat ->
  count_char c (String.concat sep (replicate n s)) = (n * count_char c s)%nat.
Proof.
  intros Hsep. induction n as [|n IH]; [reflexivity|].
  destruct n as [|n].
  - cbn. lia.
  - change (replicate (S (S n)) s) with (s :: replicate (S n) s).
    change (String.concat sep (s :: replicate (S n) s))
      with (s ++ sep ++ String.concat sep (replicate (S n) s))%string.
    rewrite !count_char_app, IH, Hsep. lia.
Qed.

Lemma characters_repeat (n : nat) :
  web_service.characters (web_service.str_repeat "?" n) = replicate n "?"%string.
Proof.
  induction n as [|n IH]; [reflexivity|].
  change (web_service.str_repeat "?" (S n))
    with (String "?" (web_service.str_repeat "?" n)).
  cbn [web_service.characters]. rewrite IH. reflexivity.
Qed.

Lemma revenue_loop_spec (bounds : list (Z * Z)) (clauses : list string)
    (params : list Z) :
  web_service.revenue_loop bounds clauses params =
  (clauses ++ replicate (length bounds) web_service.revenue_clause,
   params ++ flat_map (fun b => [fst b; snd b]) bounds).
Proof.
  revert clauses params.
  induction bounds as [|[lower upper] bounds IH]; intros clauses params.
  - cbn. now rewrite !app_nil_r.
  - cbn [web_service.revenue_loop length replicate flat_map fst snd].
    rewrite IH, <- !app_assoc. reflexivity.
Qed.

Lemma segmentation_bounds_length (labels : list string) (bounds : list (Z * Z)) :
  web_service.segmentation_bounds labels = Ok bounds ->
  length bounds = length labels.
Proof.
  revert bounds. unfold web_service.segmentation_bounds.
  induction labels as [|s labels IH]; intros bounds;
    cbn [map web_service.map_raising].
  - intros [= <-]. reflexivity.
  - destruct (get_revenue_boundaries_by_band _) as [bd|e]; [|discriminate].
    destruct (web_service.map_raising _ _) as [bs|e]; [|discriminate].
    intros [= <-]. cbn. f_equal. apply IH. reflexivity.
Qed.

(** X11. In the statement built for a segmentation request, the number of
    [?] placeholders equals the number of parameters passed with it, which
    is the number of industries plus two per band label, provided the two
    configured table names contain no [?]. *)
Theorem statement_placeholders (cfg : web_service.config)
    (revenue_bands_str industries_str : list string)
    (statement : string) (params : list web_service.sql_param) :
  count_char "?" (web_service.synthetic_companies_table cfg) = 0%nat ->
  count_char "?" (web_service.simulations_table cfg) = 0%nat ->
  web_service.segmentation_statement cfg revenue_bands_str industries_str
    = Ok (statement, params) ->
  count_char "?" statement = length params /\
  length params = (length industries_str + 2 * length revenue_bands_str)%nat.
Proof.
  intros Hc Hs. unfold web_service.segmentation_statement.
  destruct (web_service.segmentation_bounds revenue_bands_str) as [bounds|e] eqn:Hb;
    [|discriminate].
  apply segmentation_bounds_length in Hb.
  rewrite revenue_loop_spec. cbn [app]. intros [= <- <-].
  assert (Hp : length (flat_map (fun b : Z * Z => [fst b; snd b]) bounds)
               = (2 * length bounds)%nat).
  { clear. induction bounds as [|b bounds IH]; cbn [flat_map length app];
      [reflexivity | rewrite IH; lia]. }
  rewrite length_app, !length_map, Hp, Hb. split; [|reflexivity].
  unfold web_service.query_for_avg_cost, web_service.query_for_companies.
  rewrite !count_char_app, characters_repeat, Hc, Hs.
  rewrite (count_char_concat_replicate "?" "," "?") by reflexivity.
  destruct bounds as [|b bounds].
  - destruct revenue_bands_str; [|discriminate]. cbn. lia.
  - change (0 <? length (b :: bounds))%nat with true. cbn [nth].
    rewrite !count_char_app.
    rewrite (count_char_concat_replicate "?" " OR " web_service.revenue_clause)
      by reflexivity.
    change (count_char "?" web_service.revenue_clause) with 2%nat.
    cbn [count_char web_service.line_break Ascii.eqb Bool.eqb]. lia.
Qed.

Lemma statement_placeholders_witness :
  let cfg := {| web_service.synthetic_companies_table := "companies";
                web_service.simulations_table := "simulations" |} in
  exists statement params,
    web_service.segmentation_statement cfg ["100M"; "500M"]%string
      ["finance"; "healthcare"]%string = Ok (statement, params) /\
    count_char "?" statement = length params /\
    length params = 6%nat.
Proof.
  intros cfg. eexists. eexists. split; [reflexivity|].
  apply (statement_placeholders cfg ["100M"; "500M"]%string
           ["finance"; "healthcare"]%string); reflexivity.
Defined.

Lemma clause_selects_iff (b : RevenueBand) (lo hi : Z) (r : Q) :
  get_revenue_boundaries_by_band (PyRevenueBand b) = Ok (lo, hi) ->
  (web_service.clause_selects lo hi r = true <->
   0 < r /\ get_revenue_band_by_revenue r = Ok b).
Proof.
  intros Hb. unfold web_service.clause_selects.
  rewrite andb_true_iff, Qlt_bool_iff, Qle_bool_iff.
  destruct b; cbn in Hb; injection Hb as <- <-; unfold inject_Z; classify r;
    (split; [intros [H1 H2]; split; [lra | try reflexivity; exfalso; lra]
            | intros [H1 H2]; try discriminate H2; split; lra]).
Qed.

(** X12. Which companies the revenue filter of a segmentation request
    selects, compared with the classifier: a company with a positive
    revenue is selected exactly when the label of the band its revenue is
    classified into is among the requested labels; a company with revenue 0
    is never selected, although revenue 0 is classified into the first band;
    a company with a negative revenue is always selected. *)
Theorem revenue_filter_matches_classifier
    (revenue_bands_str : list string) (bounds : list (Z * Z)) (r : Q) :
  web_service.segmentation_bounds revenue_bands_str = Ok bounds ->
  (web_service.revenue_filter_selects bounds r = true <->
   r < 0 \/
   (0 < r /\ exists b, get_revenue_band_by_revenue r = Ok b /\
                       In (RevenueBand_value b) revenue_bands_str)).
Proof.
  intros Hb. pose proof (segmentation_bounds_spec revenue_bands_str) as Hspec.
  rewrite Hb in Hspec. clear Hb.
  unfold web_service.revenue_filter_selects.
  rewrite orb_true_iff, Qlt_bool_iff, existsb_exists.
  split.
  - intros [Hneg | [[lo hi] [Hin Hsel]]]; [now left | right].
    cbn [fst snd] in Hsel.
    induction Hspec as [|s bd labels bounds' (b & -> & Hbd) Hrest IH];
      [destruct Hin|].
    destruct Hin as [-> | Hin].
    + apply (clause_selects_iff b lo hi r Hbd) in Hsel as [Hpos Hcl].
      split; [exact Hpos|]. exists b. split; [exact Hcl | now left].
    + destruct (IH Hin) as [Hpos (b' & Hcl & Hin')].
      split; [exact Hpos|]. exists b'. split; [exact Hcl | now right].
  - intros [Hneg | [Hpos (b & Hcl & Hin)]]; [now left | right].
    induction Hspec as [|s bd labels bounds' (b' & -> & Hbd) Hrest IH];
      [destruct Hin|].
    destruct Hin as [Heq | Hin].
    + exists bd. split; [now left|]. destruct bd as [lo hi]. cbn [fst snd].
      assert (b' = b) as ->.
      { destruct b, b'; cbn in Heq; congruence. }
      apply (clause_selects_iff b lo hi r Hbd). split; assumption.
    + destruct (IH Hin) as [bd' [Hin' Hsel]]. exists bd'. split; [now right | exact Hsel].
Qed.

Lemma revenue_filter_matches_classifier_witness :
  web_service.revenue_filter_selects [(10, 100)%Z] 0 = true <->
  0 < 0 \/
  (0 < 0 /\ exists b, get_revenue_band_by_revenue 0 = Ok b /\
                      In (RevenueBand_value b) ["100M"%string]).
Proof.
  apply (revenue_filter_matches_classifier ["100M"%string] [(10, 100)%Z] 0).
  reflexivity.
Defined.

(** ** The two endpoints *)

(** X13. A segmentation request that names a label other than the four
    band labels gets no response from the view.  The fetch raises
    [AttributeError] before the database is consulted, whatever it holds;
    the [except] branch hands the exception object to [jsonify], which
    cannot serialise it and raises [TypeError]; and that [TypeError] leaves
    the view.  For the same reason the view never returns the status 500
    that its [except] branch names. *)
Theorem segmentation_unknown_label (cfg : web_service.config)
    (execute : string -> list web_service.sql_param
               -> result (option (list web_service.sql_value)))
    (revenue_bands_str industries_str : list string) :
  Exists (fun s => parse_revenue_band s = None) revenue_bands_str ->
  web_service.fetch_cost_by_revenue_and_industry_from_db
    cfg execute revenue_bands_str industries_str
  = Raise (AttributeError "value") /\
  web_service.get_results_by_segmentation
    (web_service.fetch_cost_by_revenue_and_industry_from_db
       cfg execute revenue_bands_str industries_str)
  = Raise (TypeError "Object of type AttributeError is not JSON serializable") /\
  (forall fetched body status,
     web_service.get_results_by_segmentation fetched = Ok (body, status) ->
     status <> 500%Z).
Proof.
  intros Hex.
  assert (Hfetch : web_service.fetch_cost_by_revenue_and_industry_from_db
                     cfg execute revenue_bands_str industries_str
                   = Raise (AttributeError "value")).
  { unfold web_service.fetch_cost_by_revenue_and_industry_from_db,
      web_service.segmentation_statement.
    pose proof (segmentation_bounds_spec revenue_bands_str) as Hspec.
    destruct (web_service.segmentation_bounds revenue_bands_str) as [bounds|e].
    - exfalso. clear -Hspec Hex.
      induction Hspec as [|s bd labels bounds' (b & -> & Hbd) Hrest IH].
      + inversion Hex.
      + inversion Hex as [? ? Hnone | ? ? Hex']; subst.
        * destruct b; vm_compute in Hnone; discriminate.
        * apply IH, Hex'.
    - destruct Hspec as [-> _]. reflexivity. }
  split; [exact Hfetch|]. split; [rewrite Hfetch; reflexivity|].
  intros fetched body status.
  unfold web_service.get_results_by_segmentation.
  destruct fetched as [[[|v row]|]|e]; cbn; try discriminate.
  destruct (web_service.truthy v); cbn; intros [= _ <-]; discriminate.
Qed.

Lemma segmentation_unknown_label_witness :
  web_service.get_results_by_segmentation
    (web_service.fetch_cost_by_revenue_and_industry_from_db
       {| web_service.synthetic_companies_table := "companies";
          web_service.simulations_table := "simulations" |}
       (fun _ _ => Ok (Some [web_service.Sql_number 7]))
       ["100M,500M"]%string ["finance,healthcare"%string])
  = Raise (TypeError "Object of type AttributeError is not JSON serializable").
Proof.
  apply segmentation_unknown_label.
  apply Exists_cons_hd. reflexivity.
Defined.

(** ** Synthetic companies *)

Lemma np_round_cases (x : Q) :
  np_round x = inject_Z (Qfloor x) \/
  (np_round x = inject_Z (Qfloor x + 1) /\ 1 # 2 <= x - inject_Z (Qfloor x)).
Proof.
  unfold np_round.
  destruct (Qlt_bool (x - inject_Z (Qfloor x)) (1 # 2)) eqn:E1; [now left|].
  apply Qlt_bool_false in E1.
  destruct (Qlt_bool (1 # 2) (x - inject_Z (Qfloor x))); [now right|].
  destruct (Z.even (Qfloor x)); [now left | now right].
Qed.

Lemma np_round_bounds (lo hi : Z) (x : Q) :
  inject_Z lo <= x <= inject_Z hi ->
  inject_Z lo <= np_round x <= inject_Z hi.
Proof.
  intros [Hlo Hhi].
  assert (Hf : (lo <= Qfloor x)%Z).
  { rewrite <- (Qfloor_Z lo). apply Qfloor_resp_le, Hlo. }
  pose proof (Qfloor_le x) as Hfl.
  destruct (np_round_cases x) as [-> | [-> Hd]].
  - split; [rewrite <- Zle_Qle; exact Hf | lra].
  - rewrite <- !Zle_Qle. split; [lia|].
    assert (Hlt : inject_Z (Qfloor x) < inject_Z hi) by lra.
    rewrite <- Zlt_Qlt in Hlt. lia.
Qed.

Lemma data_frame_columns (ids : list Z) (revs : list Q) (inds : list string) :
  length revs = length ids -> length inds = length ids ->
  exists df,
    analysis_service.data_frame ids revs inds = Ok df /\
    map analysis_service.company_id df = ids /\
    map analysis_service.revenue_usd df = revs /\
    map analysis_service.industry df = inds.
Proof.
  revert revs inds. induction ids as [|i ids IH]; intros revs inds Hr Hi.
  - destruct revs, inds; try discriminate. exists []. repeat split.
  - destruct revs as [|r revs], inds as [|s inds]; try discriminate.
    destruct (IH revs inds) as (df & Hdf & H1 & H2 & H3);
      [cbn in Hr; lia | cbn in Hi; lia |].
    cbn [analysis_service.data_frame]. rewrite Hdf.
    eexists. split; [reflexivity|]. cbn. rewrite H1, H2, H3. repeat split.
Qed.

Lemma data_frame_mismatch (ids : list Z) (revs : list Q) (inds : list string) :
  length revs <> length ids \/ length inds <> length ids ->
  analysis_service.data_frame ids revs inds
  = Raise analysis_service.frame_length_error.
Proof.
  revert revs inds. induction ids as [|i ids IH]; intros revs inds H.
  - destruct revs, inds; cbn in *; try reflexivity. lia.
  - destruct revs as [|r revs], inds as [|s inds]; try reflexivity.
    cbn [analysis_service.data_frame]. rewrite IH; [reflexivity|].
    cbn in H. lia.
Qed.

Lemma industries_parse (s : string) :
  In s analysis_service.industries ->
  exists i, Industry_from_string str_upper s = Ok i.
Proof.
  intros Hin. cbn in Hin.
  destruct Hin as [<-|[<-|[<-|[<-|[<-|[]]]]]]; eexists; vm_compute; reflexivity.
Qed.

(** X15. With [n] uniform draws between 1 and 1000 and [n] industry names
    drawn from the lower-cased member names, the generated frame has [n]
    companies with ids 1 to [n] and replaces the stored table; every
    revenue is between 1 and 1000 and is classified into a band, and every
    industry string is parsed by [Industry.from_string].  If either array
    has another length, the frame is not built and the stored table is
    kept. *)
Theorem synthetic_companies_valid (n : nat) (uniform_draws : list Q)
    (industry_data : list string) (table : list analysis_service.company) :
  (length uniform_draws = n -> length industry_data = n ->
   Forall (fun u => 1 <= u <= 1000) uniform_draws ->
   Forall (fun s => In s analysis_service.industries) industry_data ->
   exists df,
     analysis_service._generate_synthetic_companies n uniform_draws industry_data table
       = (Ok df, df) /\
     map analysis_service.company_id df = map Z.of_nat (seq 1 n) /\
     Forall (fun c =>
               1 <= analysis_service.revenue_usd c <= 1000 /\
               (exists b, get_revenue_band_by_revenue (analysis_service.revenue_usd c)
                          = Ok b) /\
               (exists i, Industry_from_string str_upper (analysis_service.industry c)
                          = Ok i)) df) /\
  (length uniform_draws <> n \/ length industry_data <> n ->
   analysis_service._generate_synthetic_companies n uniform_draws industry_data table
     = (Raise analysis_service.frame_length_error, table)).
Proof.
  unfold analysis_service._generate_synthetic_companies. split.
  - intros Hu Hi Hrange Hind.
    destruct (data_frame_columns
                (map (fun k => (Z.of_nat k + 1)%Z) (seq 0 n))
                (map np_round uniform_draws) industry_data)
      as (df & Hdf & H1 & H2 & H3).
    { rewrite !length_map, length_seq. exact Hu. }
    { rewrite length_map, length_seq. exact Hi. }
    exists df. rewrite Hdf. split; [reflexivity|]. split.
    + rewrite H1, <- seq_shift, map_map. apply map_ext. intros k. lia.
    + assert (Hr : Forall (fun c => 1 <= analysis_service.revenue_usd c <= 1000) df).
      { apply (proj1 (Forall_map analysis_service.revenue_usd
                        (fun r => 1 <= r <= 1000) df)).
        rewrite H2.
        apply (proj2 (Forall_map np_round (fun r => 1 <= r <= 1000) uniform_draws)).
        eapply Forall_impl; [exact Hrange|]. cbn. intros u Hu'.
        apply (np_round_bounds 1 1000 u Hu'). }
      assert (Hs : Forall (fun c => In (analysis_service.industry c)
                                       analysis_service.industries) df).
      { apply (proj1 (Forall_map analysis_service.industry
                        (fun s => In s analysis_service.industries) df)).
        rewrite H3. exact Hind. }
      rewrite Forall_forall in Hr, Hs. apply Forall_forall. intros c Hc.
      split; [apply Hr, Hc|]. split; [|apply industries_parse, Hs, Hc].
      destruct (Hr c Hc) as [Hc1 Hc2].
      classify (analysis_service.revenue_usd c); eauto; lra.
  - intros H. rewrite data_frame_mismatch; [reflexivity|].
    rewrite !length_map, length_seq. exact H.
Qed.

Lemma synthetic_companies_valid_witness :
  exists df,
    analysis_service._generate_synthetic_companies 2 [10; 41 # 2]
      ["finance"; "healthcare"]%string [] = (Ok df, df) /\
    map analysis_service.company_id df = [1; 2]%Z.
Proof.
  destruct (proj1 (synthetic_companies_valid 2 [10; 41 # 2]
                     ["finance"; "healthcare"]%string []))
    as (df & Hdf & Hids & _).
  - reflexivity.
  - reflexivity.
  - repeat constructor; discriminate.
  - repeat constructor; cbn; tauto.
  - exists df. split; [exact Hdf | exact Hids].
Defined.

(** ** Simulating every company *)

Lemma simulation_loop_spec (RS : RandomSource) (FS : FileSystem)
    (upper : string -> string)
    (timestamp : Type) (clock : nat -> timestamp) (stats : StatsTable)
    (rows : list analysis_service.company)
    (acc : list (analysis_service.simulation_record timestamp))
    (s : rng_state) (t : nat) :
  match analysis_service.simulation_loop upper timestamp clock stats rows acc s t with
  | (Ok simulation_results, _, t') =>
    exists records,
      simulation_results = acc ++ records /\
      map analysis_service.result_company_id records
        = map analysis_service.company_id rows /\
      map analysis_service.result_timestamp records
        = map clock (seq t (length rows)) /\
      t' = (t + length rows)%nat
  | (Raise _, _, _) => True
  end.
Proof.
  revert acc s t. induction rows as [|c rows IH]; intros acc s t.
  - cbn. exists []. rewrite app_nil_r. repeat split. lia.
  - cbn [analysis_service.simulation_loop].
    destruct (Industry_from_string upper (analysis_service.industry c)) as [i|e];
      [|exact I].
    destruct (CyberRiskSimulator_init stats i (analysis_service.revenue_usd c)
                default_num_simulations) as [sim|e]; [|exact I].
    destruct (run_simulation false (start sim s)) as [[m|e] p]; [|exact I].
    specialize (IH (acc ++ [{| analysis_service.result_company_id :=
                                 analysis_service.company_id c;
                               analysis_service.result_total_loss := total_loss m;
                               analysis_service.result_mean_loss := mean_loss m;
                               analysis_service.result_timestamp := clock t |}])
                   (process_random_state p) (S t)).
    destruct (analysis_service.simulation_loop _ _ _ _ _ _ _ _)
      as [[[res|e] s'] t']; [|exact I].
    destruct IH as (records & -> & Hids & Hts & ->).
    eexists (_ :: records). rewrite <- app_assoc. split; [reflexivity|].
    cbn [map length seq analysis_service.result_company_id
         analysis_service.result_timestamp].
    rewrite Hids, Hts. repeat split. lia.
Qed.

(** X16. [run_simulations], given at least one company, stores all or
    nothing: when it returns, the
    simulations table has gained exactly one row per company, in the order
    of the companies and with their ids, stamped with successive clock
    readings; when any company's industry string, parameters or simulation
    raises, the exception leaves the table as it was, also for the
    companies already simulated. *)
Theorem run_simulations_all_or_nothing (RS : RandomSource) (FS : FileSystem)
    (upper : string -> string) (timestamp : Type) (clock : nat -> timestamp)
    (stats : StatsTable) (companies : list analysis_service.company)
    (w : analysis_service.world timestamp) :
  companies <> [] ->
  match analysis_service.run_simulations upper timestamp clock stats companies w with
  | (Ok _, w') =>
    exists records,
      analysis_service.simulations_table timestamp w'
        = analysis_service.simulations_table timestamp w ++ records /\
      map analysis_service.result_company_id records
        = map analysis_service.company_id companies /\
      map analysis_service.result_timestamp records
        = map clock (seq (analysis_service.clock_readings timestamp w)
                         (length companies))
  | (Raise _, w') =>
    analysis_service.simulations_table timestamp w'
      = analysis_service.simulations_table timestamp w
  end.
Proof.
  intros _. unfold analysis_service.run_simulations.
  pose proof (simulation_loop_spec RS FS upper timestamp clock stats companies []
                (analysis_service.random_state timestamp w)
                (analysis_service.clock_readings timestamp w)) as Hloop.
  destruct (analysis_service.simulation_loop _ _ _ _ _ _ _ _)
    as [[[res|e] s'] t']; [|reflexivity].
  destruct Hloop as (records & -> & Hids & Hts & _).
  exists records. cbn. repeat split; assumption.
Qed.

Lemma run_simulations_all_or_nothing_witness :
  let RS := mock_source [1; 0; 2; 3; 1]%nat (52 # 10) in
  let stats : StatsTable :=
    <["healthcare"%string := <["100M"%string := band_entry (3 # 10) (52 # 10)]> ∅]> ∅ in
  let companies :=
    [{| analysis_service.company_id := 1; analysis_service.revenue_usd := 100;
        analysis_service.industry := "healthcare" |};
     {| analysis_service.company_id := 2; analysis_service.revenue_usd := 20;
        analysis_service.industry := "finance" |}] in
  let w := {| analysis_service.simulations_table := [];
              analysis_service.random_state := tt;
              analysis_service.clock_readings := 0 |} in
  match @analysis_service.run_simulations RS writable_file_system str_upper nat
          (fun k => k) stats companies w with
  | (Ok _, w') =>
    exists records,
      analysis_service.simulations_table nat w'
        = analysis_service.simulations_table nat w ++ records /\
      map analysis_service.result_company_id records
        = map analysis_service.company_id companies /\
      map analysis_service.result_timestamp records
        = map (fun k => k) (seq (analysis_service.clock_readings nat w)
                                (length companies))
  | (Raise _, w') =>
    analysis_service.simulations_table nat w' = analysis_service.simulations_table nat w
  end.
Proof.
  intros RS stats companies w.
  apply (run_simulations_all_or_nothing RS writable_file_system str_upper nat
           (fun k => k) stats companies w).
  discriminate.
Defined.

(** ** Row keys of the per-event log *)

Lemma rows_of_run_ids (i aid : nat) (costs : list Q) :
  Forall (fun row => simulation_id row = (i + 1)%nat /\
                     (aid + 1 <= attack_id row <= aid + length costs)%nat)
         (rows_of_run i aid costs).
Proof.
  revert aid. induction costs as [|c costs IH]; intros aid; cbn [rows_of_run].
  - constructor.
  - constructor; [cbn; lia|].
    eapply Forall_impl; [apply (IH (S aid))|]. cbn. intros row [H1 H2].
    split; [exact H1 | lia].
Qed.

Lemma rows_of_runs_ids (i : nat) (runs : list (list Q)) :
  Forall (fun row =>
            (i + 1 <= simulation_id row <= i + length runs)%nat /\
            (1 <= attack_id row
               <= length (nth (simulation_id row - (i + 1)) runs []))%nat)
         (rows_of_runs i runs).
Proof.
  revert i. induction runs as [|r runs IH]; intros i; cbn [rows_of_runs].
  - constructor.
  - apply Forall_app. split.
    + eapply Forall_impl; [apply (rows_of_run_ids i 0 r)|]. cbn.
      intros row [-> H2]. replace (i + 1 - (i + 1))%nat with 0%nat by lia.
      cbn. lia.
    + eapply Forall_impl; [apply (IH (S i))|]. cbn. intros row [H1 H2].
      split; [lia|].
      replace (simulation_id row - (i + 1))%nat
        with (S (simulation_id row - (S i + 1)))%nat by lia.
      cbn [nth]. exact H2.
Qed.

Lemma rows_of_run_NoDup (i aid : nat) (costs : list Q) :
  NoDup (map (fun row => (simulation_id row, attack_id row))
             (rows_of_run i aid costs)).
Proof.
  revert aid. induction costs as [|c costs IH]; intros aid; cbn [rows_of_run map].
  - constructor.
  - constructor; [|apply IH].
    intros Hin. apply list_elem_of_In, in_map_iff in Hin.
    destruct Hin as (row & Hkey & Hrow).
    pose proof (rows_of_run_ids i (S aid) costs) as Hids.
    rewrite Forall_forall in Hids. apply list_elem_of_In, Hids in Hrow.
    cbn in Hkey. injection Hkey as _ Hk. lia.
Qed.

Lemma rows_of_runs_NoDup (i : nat) (runs : list (list Q)) :
  NoDup (map (fun row => (simulation_id row, attack_id row)) (rows_of_runs i runs)).
Proof.
  revert i. induction runs as [|r runs IH]; intros i; cbn [rows_of_runs].
  - constructor.
  - rewrite map_app. apply NoDup_app. split; [apply rows_of_run_NoDup|].
    split; [|apply IH].
    intros key H1 H2.
    apply list_elem_of_In, in_map_iff in H1. destruct H1 as (row1 & <- & Hr1).
    apply list_elem_of_In, in_map_iff in H2. destruct H2 as (row2 & Hkey & Hr2).
    pose proof (rows_of_run_ids i 0 r) as Hids1.
    pose proof (rows_of_runs_ids (S i) runs) as Hids2.
    rewrite Forall_forall in Hids1, Hids2.
    apply list_elem_of_In, Hids1 in Hr1. apply list_elem_of_In, Hids2 in Hr2.
    injection Hkey as Hk _. lia.
Qed.

(** X17. The rows that one call of [_simulate_losses] appends are keyed
    by run and attack: the pairs (simulation_id, attack_id) are pairwise
    distinct, simulation_id runs from 1 to the number of runs, and within
    a run attack_id runs from 1 to that run's attack count. *)
Theorem simulate_losses_row_keys
    (RS : RandomSource) (attack_counts : list nat) (p : process) :
  match _simulate_losses attack_counts p with
  | (Ok losses, p') =>
    exists new_rows,
      results (self p') = results (self p) ++ new_rows /\
      length new_rows = sum_list attack_counts /\
      NoDup (map (fun row => (simulation_id row, attack_id row)) new_rows) /\
      Forall (fun row =>
                (1 <= simulation_id row <= length attack_counts)%nat /\
                (1 <= attack_id row
                   <= nth (simulation_id row - 1) attack_counts 0)%nat) new_rows
  | (Raise _, p') => results (self p') = results (self p)
  end.
Proof.
  rewrite _simulate_losses_spec.
  destruct (draw_costs _ _ (sum_list attack_counts) (random_state p))
    as [[costs|e] s'] eqn:E; [|reflexivity].
  pose proof (draw_costs_length _ _ _ _ _ _ E) as Hlen.
  destruct (split_runs_concat attack_counts costs Hlen) as [Hc Hl].
  exists (rows_of_runs 0 (split_runs attack_counts costs)).
  split; [reflexivity|].
  split; [rewrite rows_of_runs_length, Hc; exact Hlen|].
  split; [apply rows_of_runs_NoDup|].
  eapply Forall_impl; [apply (rows_of_runs_ids 0)|]. cbn.
  intros row [H1 H2].
  assert (Hn : length (split_runs attack_counts costs) = length attack_counts).
  { rewrite <- (length_map length), Hl. reflexivity. }
  split; [lia|].
  rewrite <- Hl.
  rewrite (nth_indep _ 0%nat (length (@nil Q))) by (rewrite length_map; lia).
  rewrite (map_nth length). exact H2.
Qed.
